(** * Transnet tender ingestion: a shallow embedding of [models.py] and
    [lambda_function.py], and the properties of the normalization factory,
    the normalization pipeline, the batcher, the dispatcher and the run
    summary.

    Layout: Python run-time values and exceptions; the [str] methods the
    factory calls; [datetime]; the classes of [models.py]; the handler of
    [lambda_function.py]; sample data; then the lemmas. *)

From Stdlib Require Import ZArith NArith Lia Ascii String.
From Stdlib Require Import Floats.SpecFloat.
From stdpp Require Import base option list gmap strings pretty.

#[local] Set Warnings "-register-all".
#[local] Open Scope N_scope.

(** ** Python values *)

(** A Python [str] is a sequence of Unicode code points. *)
Abbreviation pystr := (list N).

(** Source literals are ASCII: one code point per character. *)
Definition py (s : string) : pystr :=
  map N_of_ascii (list_ascii_of_string s).

(** What [response.json()] can hand to the program: JSON [null], booleans,
    integers, floats, strings, arrays and objects.  An object is a [dict];
    the program only reads it with [.get] and by iteration. *)
Inductive PyVal : Type :=
| VNone
| VBool (b : bool)
| VInt (z : Z)
| VFloat (f : spec_float)
| VStr (s : pystr)
| VList (l : list PyVal)
| VDict (d : gmap pystr PyVal).

(** Truth value testing ([if x:], [not x]). *)
Definition truthy (v : PyVal) : bool :=
  match v with
  | VNone => false
  | VBool b => b
  | VInt z => negb (z =? 0)%Z
  | VFloat (S754_zero _) => false
  | VFloat _ => true
  | VStr s => negb (bool_decide (s = []))
  | VList l => negb (bool_decide (length l = 0%nat))
  | VDict d => negb (bool_decide (size d = 0%nat))
  end.

(** ** Exceptions *)

(** The exception classes that occur in the program or are named by its
    handlers.  [RequestsJSONDecodeError] is [requests.exceptions.JSONDecodeError],
    [OtherException] any further subclass of [Exception] raised by a
    collaborator (for instance a botocore error). *)
Inductive exn : Type :=
| AttributeError
| KeyError
| TypeError
| ValueError
| JSONDecodeError
| RequestException
| RequestsJSONDecodeError
| OtherException (name : string).

(** [isinstance (e, cls)]: the subclass relation among the classes above. *)
Definition isinstance (e cls : exn) : bool :=
  match e, cls with
  | AttributeError, AttributeError => true
  | KeyError, KeyError => true
  | TypeError, TypeError => true
  | ValueError, ValueError => true
  | JSONDecodeError, (JSONDecodeError | ValueError) => true
  | RequestException, RequestException => true
  | RequestsJSONDecodeError,
    (RequestsJSONDecodeError | RequestException | JSONDecodeError | ValueError) => true
  | OtherException n, OtherException m => bool_decide (n = m)
  | _, _ => false
  end.

(** [except (c1, c2, ...)]. *)
Definition except_ (classes : list exn) (e : exn) : bool :=
  existsb (isinstance e) classes.

(** [except Exception]: every class above derives from [Exception]. *)
Definition except_Exception (e : exn) : bool := true.

(** Outcome of evaluating an expression. *)
Inductive Res (A : Type) : Type :=
| Ok (a : A)
| Raise (e : exn).
Arguments Ok {A} a.
Arguments Raise {A} e.

(** ** The [datetime] values the factory stores *)

Record datetime : Type := mk_datetime {
  year : nat; month : nat; day : nat;
  hour : nat; minute : nat; second : nat }.

(** ** Observable effects: log records and queue calls *)

Inductive level : Type := INFO | WARNING | ERROR.

(** One constructor per logging call of the source; the arguments are the
    values interpolated into the message. *)
Inductive message : Type :=
| msg_invalid_date (tender_id : PyVal) (field : pystr) (raw : PyVal)
| msg_starting
| msg_fetching (url : pystr)
| msg_fetched (n : nat)
| msg_fetch_failed (e : exn)
| msg_decode_failed
| msg_skipping (tender_id : PyVal) (e : exn)
| msg_processed (n : nat)
| msg_skipped_total (n : nat)
| msg_batch_sent (n : nat)
| msg_some_failed (failed : list PyVal)
| msg_batch_failed (e : exn)
| msg_complete (sent_count : nat).

(** An entry of [send_message_batch]. *)
Record Entry : Type := mk_Entry {
  Id : pystr; MessageBody : pystr; MessageGroupId : pystr }.

(** The response of [send_message_batch]: a mapping in which the keys
    ['Successful'] and ['Failed'] are each optional and hold a list. *)
Record SendMessageBatchResult : Type := mk_SendMessageBatchResult {
  Successful : option (list PyVal);
  Failed : option (list PyVal) }.

Inductive Event : Type :=
| Log (lvl : level) (m : message)
| SendMessageBatch (QueueUrl : pystr) (Entries : list Entry)
    (outcome : Res SendMessageBatchResult).

(** ** Computations: a trace of events and a result or an exception *)

Definition M (A : Type) : Type := (list Event * Res A)%type.

Definition ret {A} (a : A) : M A := ([], Ok a).
Definition raise {A} (e : exn) : M A := ([], Raise e).
Definition bind {A B} (m : M A) (k : A → M B) : M B :=
  match m with
  | (t, Ok a) => let '(t', r) := k a in (t ++ t', r)
  | (t, Raise e) => (t, Raise e)
  end.
Definition lift {A} (r : Res A) : M A := ([], r).
Definition logging (lvl : level) (m : message) : M unit := ([Log lvl m], Ok tt).

Notation "x <- m ;; k" := (bind m (fun x => k))
  (at level 100, m at next level, right associativity).
Notation "m ;;; k" := (bind m (fun _ => k))
  (at level 100, right associativity).

(** [try: body  except c1 as e: h1 e  except c2 as e: h2 e ...]: the first
    clause whose classes match handles the exception; an exception no clause
    matches, or one raised by a handler, propagates. *)
Fixpoint find_handler {A} (clauses : list ((exn → bool) * (exn → M A)))
    (e : exn) : option (exn → M A) :=
  match clauses with
  | [] => None
  | (catches, handler) :: clauses' =>
      if catches e then Some handler else find_handler clauses' e
  end.

Definition try_except {A} (body : M A)
    (clauses : list ((exn → bool) * (exn → M A))) : M A :=
  match body with
  | (t, Raise e) =>
      match find_handler clauses e with
      | Some handler => let '(t', r) := handler e in (t ++ t', r)
      | None => (t, Raise e)
      end
  | finished => finished
  end.

(** [for x in xs: acc = body acc x]. *)
Fixpoint for_each {A S} (xs : list A) (acc : S) (body : S → A → M S) : M S :=
  match xs with
  | [] => ret acc
  | x :: xs' => acc' <- body acc x ;; for_each xs' acc' body
  end.

(** ** Built-in operations on values *)

(** [d.get(key)] / [d.get(key, default)] on a [dict]. *)
Definition dict_get (d : gmap pystr PyVal) (key : pystr) (default : PyVal) : PyVal :=
  match d !! key with
  | Some v => v
  | None => default
  end.

(** [v.get(key, default)] on an arbitrary value: only a [dict] has the
    attribute. *)
Definition py_get (v : PyVal) (key : pystr) (default : PyVal) : Res PyVal :=
  match v with
  | VDict d => Ok (dict_get d key default)
  | _ => Raise AttributeError
  end.

(** [len(v)]. *)
Definition py_len (v : PyVal) : Res nat :=
  match v with
  | VStr s => Ok (length s)
  | VList l => Ok (length l)
  | VDict d => Ok (size d)
  | _ => Raise TypeError
  end.

(** [for item in v]: the items an iteration yields.  A [dict] yields its
    keys ([gmap] enumerates them in its own order). *)
Definition py_iter (v : PyVal) : Res (list PyVal) :=
  match v with
  | VList l => Ok l
  | VStr s => Ok (map (λ c, VStr [c]) s)
  | VDict d => Ok (map (λ kv, VStr kv.1) (map_to_list d))
  | _ => Raise TypeError
  end.

(** [range(start, stop, step)] for a positive step. *)
Definition py_range (start stop step : nat) : list nat :=
  map (λ k, start + k * step)%nat (seq 0 ((stop - start + (step - 1)) / step)%nat).

(** [l[i:j]] for non-negative bounds. *)
Definition py_slice {A} (l : list A) (i j : nat) : list A :=
  take (j - i) (drop i l).

(** ** The [str] methods used by the factory

    The character properties of the Basic Latin block are written out; for
    the code points from 128 on they come from the Unicode character
    database, which is a parameter. *)

Class UnicodeData : Type := {
  ucd_isspace : N → bool;
  ucd_iscased : N → bool;
  ucd_iscaseignorable : N → bool;
  ucd_tolower_full : N → list N;
  ucd_totitle_full : N → list N;
  ucd_toupper_full : N → list N }.

Definition LF : N := 10.
Definition CR : N := 13.
Definition SP : N := 32.

Definition is_ascii (c : N) : bool := c <? 128.
Definition ascii_isspace (c : N) : bool :=
  ((9 <=? c) && (c <=? 13)) || ((28 <=? c) && (c <=? 32)).
Definition ascii_isupper (c : N) : bool := (65 <=? c) && (c <=? 90).
Definition ascii_islower (c : N) : bool := (97 <=? c) && (c <=? 122).
Definition ascii_isalpha (c : N) : bool := ascii_isupper c || ascii_islower c.
Definition ascii_tolower (c : N) : N := if ascii_isupper c then c + 32 else c.
Definition ascii_toupper (c : N) : N := if ascii_islower c then c - 32 else c.
(** Apostrophe, full stop, colon, circumflex and grave accent. *)
Definition ascii_iscaseignorable (c : N) : bool :=
  (c =? 39) || (c =? 46) || (c =? 58) || (c =? 94) || (c =? 96).

Section StrMethods.
Context `{UnicodeData}.

Definition Py_UNICODE_ISSPACE (c : N) : bool :=
  if is_ascii c then ascii_isspace c else ucd_isspace c.
Definition PyUnicode_IsCased (c : N) : bool :=
  if is_ascii c then ascii_isalpha c else ucd_iscased c.
Definition PyUnicode_IsCaseIgnorable (c : N) : bool :=
  if is_ascii c then ascii_iscaseignorable c else ucd_iscaseignorable c.
Definition PyUnicode_ToLowerFull (c : N) : list N :=
  if is_ascii c then [ascii_tolower c] else ucd_tolower_full c.
Definition PyUnicode_ToTitleFull (c : N) : list N :=
  if is_ascii c then [ascii_toupper c] else ucd_totitle_full c.
Definition PyUnicode_ToUpperFull (c : N) : list N :=
  if is_ascii c then [ascii_toupper c] else ucd_toupper_full c.

(** [s.replace(old, new)] for a one-character [old]. *)
Definition str_replace (s : pystr) (old : N) (new : pystr) : pystr :=
  flat_map (λ c, if bool_decide (c = old) then new else [c]) s.

Fixpoint str_lstrip (s : pystr) : pystr :=
  match s with
  | c :: s' => if Py_UNICODE_ISSPACE c then str_lstrip s' else s
  | [] => []
  end.
Definition str_rstrip (s : pystr) : pystr := reverse (str_lstrip (reverse s)).
(** [s.strip()]. *)
Definition str_strip (s : pystr) : pystr := str_rstrip (str_lstrip s).

Fixpoint skip_case_ignorable (s : pystr) : pystr :=
  match s with
  | c :: s' => if PyUnicode_IsCaseIgnorable c then skip_case_ignorable s' else s
  | [] => []
  end.

(** Lower-casing of U+03A3: final sigma U+03C2 when preceded by a cased
    letter and not followed by one, case-ignorable characters skipped.
    [before] holds the preceding characters, nearest first. *)
Definition handle_capital_sigma (before after : pystr) : N :=
  let final_sigma :=
    match skip_case_ignorable before with
    | c :: _ => PyUnicode_IsCased c
    | [] => false
    end in
  let final_sigma :=
    final_sigma &&
    match skip_case_ignorable after with
    | c :: _ => negb (PyUnicode_IsCased c)
    | [] => true
    end in
  if final_sigma then 962 else 963.

Definition lower_ucs4 (before : pystr) (c : N) (after : pystr) : list N :=
  if c =? 931 then [handle_capital_sigma before after]
  else PyUnicode_ToLowerFull c.

Fixpoint do_lower (before s : pystr) : pystr :=
  match s with
  | [] => []
  | c :: after => lower_ucs4 before c after ++ do_lower (c :: before) after
  end.
(** [s.lower()]. *)
Definition str_lower (s : pystr) : pystr := do_lower [] s.

(** [s.upper()]. *)
Definition str_upper (s : pystr) : pystr := flat_map PyUnicode_ToUpperFull s.

Fixpoint do_title (previous_is_cased : bool) (before s : pystr) : pystr :=
  match s with
  | [] => []
  | c :: after =>
      (if previous_is_cased then lower_ucs4 before c after
       else PyUnicode_ToTitleFull c)
      ++ do_title (PyUnicode_IsCased c) (c :: before) after
  end.
(** [s.title()]. *)
Definition str_title (s : pystr) : pystr := do_title false [] s.

(** [v.replace(old, new)] on an arbitrary value: only a [str] has the
    attribute. *)
Definition py_replace (v : PyVal) (old : N) (new : pystr) : Res pystr :=
  match v with
  | VStr s => Ok (str_replace s old new)
  | _ => Raise AttributeError
  end.
End StrMethods.

(** ** [datetime.strptime] and [datetime.isoformat] *)

(** [datetime.strptime(date_string, format)] on a [str]: the timestamp, or
    [None] where the library raises [ValueError].  The library function is a
    parameter of the development. *)
Class Strptime : Type := strptime : pystr → pystr → option datetime.

(** The call on an arbitrary value: a non-[str] argument is a [TypeError]. *)
Definition datetime_strptime `{Strptime} (date_string : PyVal) (format : pystr)
    : Res datetime :=
  match date_string with
  | VStr s =>
      match strptime s format with
      | Some d => Ok d
      | None => Raise ValueError
      end
  | _ => Raise TypeError
  end.

(** Decimal rendering on [width] digits, zero-padded. *)
Fixpoint zero_padded (width n : nat) : pystr :=
  match width with
  | O => []
  | S w => zero_padded w (n / 10) ++ [48 + N.of_nat (n mod 10)]
  end.

(** [d.isoformat()] of a timestamp without microseconds or time zone. *)
Definition isoformat (d : datetime) : pystr :=
  zero_padded 4 (year d) ++ py "-" ++ zero_padded 2 (month d) ++ py "-"
  ++ zero_padded 2 (day d) ++ py "T" ++ zero_padded 2 (hour d) ++ py ":"
  ++ zero_padded 2 (minute d) ++ py ":" ++ zero_padded 2 (second d).

(** [str(n)] of a non-negative integer. *)
Definition str_of_nat (n : nat) : pystr := py (pretty n).

(** ** models.py *)

Module SupportingDoc.
Record t : Type := mk { name : pystr; url : PyVal }.

Definition to_dict (self : t) : PyVal :=
  VDict (<[py "name" := VStr (name self)]> (<[py "url" := url self]> ∅)).
End SupportingDoc.

Module TenderBase.
Record t : Type := mk {
  title : pystr;
  description : pystr;
  source : pystr;
  published_date : option datetime;
  closing_date : option datetime;
  supporting_docs : list SupportingDoc.t;
  tags : list PyVal }.

(** [__init__]: an omitted ([None]) list argument becomes a fresh [[]]. *)
Definition init (title description source : pystr)
    (published_date closing_date : option datetime)
    (supporting_docs : option (list SupportingDoc.t))
    (tags : option (list PyVal)) : t :=
  mk title description source published_date closing_date
     (match supporting_docs with Some l => l | None => [] end)
     (match tags with Some l => l | None => [] end).

(** [[tag.to_dict() for tag in self.tags]]: no JSON value has a [to_dict]
    attribute, so the first tag, if any, raises. *)
Definition tags_to_dict (tags : list PyVal) : Res (list PyVal) :=
  match tags with
  | [] => Ok []
  | _ :: _ => Raise AttributeError
  end.

Definition to_dict (self : t) : Res (gmap pystr PyVal) :=
  match tags_to_dict (tags self) with
  | Raise e => Raise e
  | Ok tag_dicts =>
      Ok (<[py "title" := VStr (title self)]>
         (<[py "description" := VStr (description self)]>
         (<[py "source" := VStr (source self)]>
         (<[py "publishedDate" :=
              match published_date self with
              | Some d => VStr (isoformat d)
              | None => VNone
              end]>
         (<[py "closingDate" :=
              match closing_date self with
              | Some d => VStr (isoformat d)
              | None => VNone
              end]>
         (<[py "supporting_docs" :=
              VList (map SupportingDoc.to_dict (supporting_docs self))]>
         (<[py "tags" := VList tag_dicts]> ∅)))))))
  end.
End TenderBase.

Module TransnetTender.
Record t : Type := mk {
  base : TenderBase.t;
  tender_number : pystr;
  institution : pystr;
  category : pystr;
  tender_type : pystr;
  location : pystr;
  email : pystr;
  contact_person : pystr }.

(** [__init__]: [super().__init__(...)] and the seven own attributes. *)
Definition init (title description source : pystr)
    (published_date closing_date : option datetime)
    (supporting_docs : list SupportingDoc.t) (tags : list PyVal)
    (tender_number institution category tender_type location email
       contact_person : pystr) : t :=
  mk (TenderBase.init title description source published_date closing_date
        (Some supporting_docs) (Some tags))
     tender_number institution category tender_type location email
     contact_person.

Definition date_format : pystr := py "%m/%d/%Y %I:%M:%S %p".

Section Factory.
Context `{UnicodeData} `{Strptime}.

(** One text argument of the constructor call (models.py, lines 198-211):
    [response_item.get(key, '').replace('\n', ' ').replace('\r', '').strip().casing()]. *)
Definition text_arg (response_item : PyVal) (key : pystr)
    (casing : pystr → pystr) : M pystr :=
  v <- lift (py_get response_item key (VStr [])) ;;
  s <- lift (py_replace v LF [SP]) ;;
  ret (casing (str_strip (str_replace s CR []))).

(** One date block (models.py, lines 178-185 and 186-191):
    [try: s = response_item.get(key); if s: d = strptime(s, fmt)
    except (TypeError, ValueError): logging.warning(...)]; the variable
    keeps its initial [None] unless the assignment is reached. *)
Definition date_block (response_item tender_id : PyVal) (key : pystr)
    : M (option datetime) :=
  try_except
    (date_str <- lift (py_get response_item key VNone) ;;
     if truthy date_str
     then d <- lift (datetime_strptime date_str date_format) ;; ret (Some d)
     else ret None)
    [ (except_ [TypeError; ValueError],
       λ _, raw <- lift (py_get response_item key VNone) ;;
            logging WARNING (msg_invalid_date tender_id key raw) ;;;
            ret None) ].

(** The factory (models.py, lines 149-212).  The keyword arguments of
    [cls(...)] are evaluated in the order written. *)
Definition from_api_response (response_item : PyVal) : M (option t) :=
  tender_id <- lift (py_get response_item (py "rowKey") VNone) ;;
  if negb (truthy tender_id) then ret None else
  attachment_url <- lift (py_get response_item (py "attachment") VNone) ;;
  let doc_list :=
    if truthy attachment_url
    then [SupportingDoc.mk (py "Tender Attachment") attachment_url]
    else [] in
  pub_date <- date_block response_item tender_id (py "publishedDate") ;;
  close_date <- date_block response_item tender_id (py "closingDate") ;;
  title <- text_arg response_item (py "nameOfTender") str_title ;;
  description <- text_arg response_item (py "descriptionOfTender") str_title ;;
  tender_number <- text_arg response_item (py "tenderNumber") str_upper ;;
  institution <- text_arg response_item (py "nameOfInstitution") str_upper ;;
  category <- text_arg response_item (py "tenderCategory") str_title ;;
  tender_type <- text_arg response_item (py "tenderType") str_upper ;;
  location <- text_arg response_item (py "locationOfService") str_title ;;
  email <- text_arg response_item (py "contactPersonEmailAddress") str_lower ;;
  contact_person <- text_arg response_item (py "contactPersonName") str_title ;;
  ret (Some (init title description (py "Transnet") pub_date close_date
               doc_list [] tender_number institution category tender_type
               location email contact_person)).
End Factory.

(** [data = super().to_dict(); data.update({...}); return data]. *)
Definition to_dict (self : t) : Res (gmap pystr PyVal) :=
  match TenderBase.to_dict (base self) with
  | Raise e => Raise e
  | Ok data =>
      Ok (<[py "contactPerson" := VStr (contact_person self)]>
         (<[py "email" := VStr (email self)]>
         (<[py "location" := VStr (location self)]>
         (<[py "tenderType" := VStr (tender_type self)]>
         (<[py "category" := VStr (category self)]>
         (<[py "institution" := VStr (institution self)]>
         (<[py "tenderNumber" := VStr (tender_number self)]> data)))))))
  end.
End TransnetTender.

(** ** lambda_function.py *)

(** [json.dumps] on the transport representation of a tender; a parameter. *)
Class JsonDumps : Type := json_dumps : PyVal → pystr.

(** The queue client: [send_message_batch(QueueUrl, Entries)] answers with a
    response or raises, and may depend on and change the state [Q] of the
    remote queue and of the connection. *)
Class SqsClient (Q : Type) : Type :=
  send_message_batch : Q → pystr → list Entry → Q * Res SendMessageBatchResult.

Definition TRANSNET_API_URL : pystr :=
  py "https://transnetetenders.azurewebsites.net/Home/GetAdvertisedTenders".
Definition SQS_QUEUE_URL : pystr :=
  py "https://sqs.us-east-1.amazonaws.com/211635102441/AIQueue.fifo".

(** The value [lambda_handler] returns: [{'statusCode': ..., 'body': ...}]. *)
Inductive Body : Type :=
| body_error_json (error : pystr)    (* json.dumps({'error': error}) *)
| body_message (message : pystr).    (* {'message': message} *)

Record Summary : Type := mk_Summary { statusCode : Z; body : Body }.

(** The two accumulators of the normalization loop. *)
Record Normalized : Type := mk_Normalized {
  processed_tenders : list TransnetTender.t;
  skipped_count : nat }.

Definition batch_size : nat := 10.

(** Step 4, first half (lines 115-120):
    [[dicts[i:i + batch_size] for i in range(0, len(dicts), batch_size)]]. *)
Definition message_batches {A} (processed_tender_dicts : list A) : list (list A) :=
  map (λ i, py_slice processed_tender_dicts i (i + batch_size))
      (py_range 0 (length processed_tender_dicts) batch_size).

Section Handler.
Context `{UnicodeData} `{Strptime} `{JsonDumps}.

(** Step 1 (lambda_function.py, lines 60-81).  [fetched] is what lines 63-66 produce: the decoded JSON
    document, or the exception raised by [requests.get],
    [raise_for_status] or [response.json]. *)
Definition fetch (fetched : Res PyVal) : M (Summary + PyVal) :=
  try_except
    (logging INFO (msg_fetching TRANSNET_API_URL) ;;;
     api_response_dict <- lift fetched ;;
     api_data <- lift (py_get api_response_dict (py "result") (VList [])) ;;
     n <- lift (py_len api_data) ;;
     logging INFO (msg_fetched n) ;;;
     ret (inr api_data))
    [ (except_ [RequestException],
       λ e, logging ERROR (msg_fetch_failed e) ;;;
            ret (inl (mk_Summary 502
                   (body_error_json (py "Failed to fetch data from source API")))));
      (except_ [JSONDecodeError],
       λ _, logging ERROR msg_decode_failed ;;;
            ret (inl (mk_Summary 502
                   (body_error_json (py "Invalid JSON response from source API"))))) ].

(** Step 2, the body of the loop over [api_data] (lines 88-104). *)
Definition process_item (acc : Normalized) (item : PyVal) : M Normalized :=
  try_except
    (tender_object <- TransnetTender.from_api_response item ;;
     match tender_object with
     | Some tender =>
         ret (mk_Normalized (processed_tenders acc ++ [tender]) (skipped_count acc))
     | None =>
         ret (mk_Normalized (processed_tenders acc) (skipped_count acc + 1))
     end)
    [ (except_ [KeyError; ValueError; TypeError],
       λ e, tender_id <- lift (py_get item (py "rowKey") (VStr (py "Unknown"))) ;;
            logging WARNING (msg_skipping tender_id e) ;;;
            ret (mk_Normalized (processed_tenders acc) (skipped_count acc + 1))) ].

(** Step 2 (lines 84-108). *)
Definition process_items (api_data : list PyVal) : M Normalized :=
  acc <- for_each api_data (mk_Normalized [] 0) process_item ;;
  logging INFO (msg_processed (length (processed_tenders acc))) ;;;
  (if (0 <? skipped_count acc)%nat
   then logging WARNING (msg_skipped_total (skipped_count acc))
   else ret tt) ;;;
  ret acc.

(** Step 3 (line 112): [[tender.to_dict() for tender in processed_tenders]]. *)
Fixpoint to_dicts (tenders : list TransnetTender.t) : Res (list PyVal) :=
  match tenders with
  | [] => Ok []
  | tender :: rest =>
      match TransnetTender.to_dict tender with
      | Raise e => Raise e
      | Ok d =>
          match to_dicts rest with
          | Raise e => Raise e
          | Ok ds => Ok (VDict d :: ds)
          end
      end
  end.

(** The entries of one batch (lines 124-131). *)
Definition make_entries (batch_index : nat) (batch : list PyVal) : list Entry :=
  imap (λ i tender_dict,
          mk_Entry (py "tender_message_" ++ str_of_nat batch_index ++ py "_"
                      ++ str_of_nat i)
                   (json_dumps tender_dict)
                   (py "TransnetTenderScrape"))
       batch.

Section Dispatch.
Context {Q : Type} `{SqsClient Q}.

(** The [try] block around one send (lines 137-149): the call, the count
    and the two log records, under [except Exception]. *)
Definition send_one (q : Q) (sent_count : nat) (entries : list Entry) : Q * M nat :=
  let '(q', outcome) := send_message_batch q SQS_QUEUE_URL entries in
  (q',
   try_except
     (response <- ([SendMessageBatch SQS_QUEUE_URL entries outcome], outcome) ;;
      let sent_count :=
        (sent_count + length (match Successful response with
                              | Some l => l
                              | None => []
                              end))%nat in
      logging INFO (msg_batch_sent (length entries)) ;;;
      (match Failed response with
       | Some (f :: fs) => logging ERROR (msg_some_failed (f :: fs))
       | _ => ret tt
       end) ;;;
      ret sent_count)
     [ (except_Exception,
        λ e, logging ERROR (msg_batch_failed e) ;;; ret sent_count) ]).

(** Step 4, second half (lines 122-149): the loop over
    [enumerate(message_batches)], from index [batch_index] on; an empty list
    of entries is skipped without a call. *)
Fixpoint send_batches (batches : list (list PyVal)) (batch_index : nat)
    (q : Q) (sent_count : nat) : Q * M nat :=
  match batches with
  | [] => (q, ret sent_count)
  | batch :: rest =>
      match make_entries batch_index batch with
      | [] => send_batches rest (S batch_index) q sent_count
      | entries =>
          let '(q', sent) := send_one q sent_count entries in
          match sent with
          | (t, Ok sent_count') =>
              let '(q'', (t', r)) := send_batches rest (S batch_index) q' sent_count' in
              (q'', (t ++ t', r))
          | (t, Raise e) => (q', (t, Raise e))
          end
      end
  end.

(** The handler (lines 53-157).  The state of the queue is threaded through
    the sends; everything else is in the trace. *)
Definition lambda_handler (fetched : Res PyVal) (q : Q)
    (event context : PyVal) : Q * M Summary :=
  match (logging INFO msg_starting ;;; fetch fetched) with
  | (t, Raise e) => (q, (t, Raise e))
  | (t, Ok (inl failure)) => (q, (t, Ok failure))
  | (t, Ok (inr api_data)) =>
      match (items <- lift (py_iter api_data) ;;
             acc <- process_items items ;;
             lift (to_dicts (processed_tenders acc))) with
      | (t1, Raise e) => (q, (t ++ t1, Raise e))
      | (t1, Ok processed_tender_dicts) =>
          let '(q', sent) :=
            send_batches (message_batches processed_tender_dicts) 0 q 0 in
          (q',
           bind (t ++ t1, Ok tt) (λ _,
             sent_count <- sent ;;
             logging INFO (msg_complete sent_count) ;;;
             ret (mk_Summary 200
                    (body_message (py "Tender data processed and sent to SQS queue.")))))
      end
  end.
End Dispatch.
End Handler.

(** ** Instances of the parameters and sample data *)

(** An excerpt of the Unicode character database beyond Basic Latin:
    U+0130 LATIN CAPITAL LETTER I WITH DOT ABOVE (cased, lower-cases to
    U+0069 U+0307) and U+0307 COMBINING DOT ABOVE (case-ignorable, not
    cased).  Every other code point gets the properties of an uncased
    character without case mappings. *)
Definition ucd_excerpt : UnicodeData := {|
  ucd_isspace := λ _, false;
  ucd_iscased := λ c, c =? 304;
  ucd_iscaseignorable := λ c, c =? 775;
  ucd_tolower_full := λ c, if c =? 304 then [105; 775] else [c];
  ucd_totitle_full := λ c, [c];
  ucd_toupper_full := λ c, [c] |}.

Definition digit (c : N) : option nat :=
  if (48 <=? c) && (c <=? 57) then Some (N.to_nat (c - 48)) else None.

Definition number (cs : list N) : option nat :=
  foldl (λ acc c, match acc, digit c with
                  | Some n, Some d => Some (10 * n + d)%nat
                  | _, _ => None
                  end) (Some 0%nat) cs.

Definition is_leap (y : nat) : bool :=
  ((y mod 4 =? 0) && negb (y mod 100 =? 0) || (y mod 400 =? 0))%nat.

Definition days_in_month (y m : nat) : nat :=
  match m with
  | 2 => if is_leap y then 29 else 28
  | 4 | 6 | 9 | 11 => 30
  | _ => 31
  end%nat.

(** [datetime.strptime] with the format ['%m/%d/%Y %I:%M:%S %p'] on the
    zero-padded spelling [MM/DD/YYYY HH:MM:SS AM] (or [PM], either case of
    the meridiem).  The library accepts further spellings (one-digit fields,
    runs of white space); this instance rejects them, and every other
    format. *)
Definition strptime_padded : Strptime := λ date_string format,
  if negb (bool_decide (format = TransnetTender.date_format)) then None else
  match date_string with
  | [m1; m2; 47; d1; d2; 47; y1; y2; y3; y4; 32; h1; h2; 58; mi1; mi2; 58;
     s1; s2; 32; ap; mm] =>
      match number [m1; m2], number [d1; d2], number [y1; y2; y3; y4],
            number [h1; h2], number [mi1; mi2], number [s1; s2] with
      | Some mo, Some d, Some y, Some h, Some mi, Some s =>
          let pm := (ap =? 80) || (ap =? 112) in
          let am := (ap =? 65) || (ap =? 97) in
          if ((1 <=? mo) && (mo <=? 12) && (1 <=? d) && (d <=? days_in_month y mo)
              && (1 <=? y) && (1 <=? h) && (h <=? 12) && (mi <=? 59) && (s <=? 59))%nat
             && (am || pm) && ((mm =? 77) || (mm =? 109))
          then Some (mk_datetime y mo d
                       ((if (h =? 12)%nat then 0 else h) + (if pm then 12 else 0))%nat
                       mi s)
          else None
      | _, _, _, _, _, _ => None
      end
  | _ => None
  end.

(** A serializer stand-in: every payload is rendered as the text [{}]. *)
Definition json_dumps_braces : JsonDumps := λ _, py "{}".

(** A queue that confirms every entry it is given. *)
Definition sqs_accepting : SqsClient unit := λ q _ entries,
  (q, Ok (mk_SendMessageBatchResult
            (Some (map (λ e, VStr (Id e)) entries)) None)).

(** A queue whose every call raises. *)
Definition sqs_failing : SqsClient unit := λ q _ _,
  (q, Raise (OtherException "ClientError")).

(** A queue whose state counts the calls: the first call rejects its first
    entry and confirms the others, the second call raises, every later call
    confirms all its entries. *)
Definition sqs_flaky : SqsClient nat := λ calls _ entries,
  (S calls,
   match calls, entries with
   | O, e :: es =>
       Ok (mk_SendMessageBatchResult
             (Some (map (λ e, VStr (Id e)) es)) (Some [VStr (Id e)]))
   | 1%nat, _ => Raise (OtherException "ClientError")
   | _, _ =>
       Ok (mk_SendMessageBatchResult
             (Some (map (λ e, VStr (Id e)) entries)) (Some []))
   end).

Definition dict (kvs : list (string * PyVal)) : gmap pystr PyVal :=
  list_to_map (map (λ kv, (py kv.1, kv.2)) kvs).

(** The item of the repository's unit test. *)
Definition sample_item : gmap pystr PyVal := dict [
  ("rowKey", VStr (py "abc123"));
  ("nameOfTender", VStr (py "Upgrade of Rail"));
  ("descriptionOfTender", VStr (py "Full overhaul of rail infrastructure"));
  ("publishedDate", VStr (py "10/01/2025 09:00:00 AM"));
  ("closingDate", VStr (py "10/31/2025 04:00:00 PM"));
  ("attachment", VStr (py "https://example.com/doc.pdf"));
  ("tenderNumber", VStr (py "TN123"));
  ("nameOfInstitution", VStr (py "Transnet Freight Rail"));
  ("tenderCategory", VStr (py "Infrastructure"));
  ("tenderType", VStr (py "Open"));
  ("locationOfService", VStr (py "Durban"));
  ("contactPersonEmailAddress", VStr (py "contact@transnet.co.za"));
  ("contactPersonName", VStr (py "John Doe")) ].

(** An item without identifier (the unit test's second item). *)
Definition item_without_id : gmap pystr PyVal :=
  dict [("nameOfTender", VStr (py "Upgrade of Rail"))].

(** Two items that differ in the identifier only. *)
Definition item_abc : gmap pystr PyVal :=
  <[py "rowKey" := VStr (py "abc123")]> item_without_id.
Definition item_xyz : gmap pystr PyVal :=
  <[py "rowKey" := VStr (py "xyz789")]> item_without_id.

(** An item whose title is JSON [null]. *)
Definition item_null_title : gmap pystr PyVal :=
  dict [("rowKey", VStr (py "T-1")); ("nameOfTender", VNone)].

(** A raw collection in which the item with the null title comes first. *)
Definition collection_null_first : list PyVal :=
  [VDict item_null_title; VDict sample_item].

(** A raw collection of a valid item and an item without identifier. *)
Definition collection_mixed : list PyVal :=
  [VDict sample_item; VDict item_without_id].

(** The JSON document of a successful fetch that holds [items]. *)
Definition document (items : list PyVal) : PyVal :=
  VDict (dict [("result", VList items)]).

(** The tender that the unit test of [to_dict] builds. *)
Definition unit_test_tender : TransnetTender.t :=
  TransnetTender.init (py "Rail Upgrade") (py "Fix tracks") (py "Transnet")
    (Some (mk_datetime 2025 10 1 9 0 0)) (Some (mk_datetime 2025 10 31 16 0 0))
    [SupportingDoc.mk (py "Doc") (VStr (py "https://example.com"))] []
    (py "TN123") (py "Transnet") (py "Infrastructure") (py "Open") (py "Durban")
    (py "contact@transnet.co.za") (py "John Doe").


(** An item with a malformed published date and untidy text. *)
Definition item_untidy : gmap pystr PyVal := dict [
  ("rowKey", VStr (py "T-2"));
  ("nameOfTender", VStr ([SP; SP] ++ py "supply" ++ [LF] ++ py "of they're rails" ++ [CR; LF]));
  ("publishedDate", VStr (py "13/45/2025 99:00:00 XM"));
  ("closingDate", VStr (py "02/29/2024 12:30:00 AM"));
  ("contactPersonEmailAddress", VStr (py " Jane.Doe@Transnet.NET ")) ].





(** ** Vocabulary of the properties *)

(** The casing rule declared for a text field. *)
Inductive Casing : Type := TitleCase | UpperCase | LowerCase.

(** The nine free-text fields: key of the raw item, casing rule, attribute
    of the record. *)
Definition text_fields : list (pystr * Casing * (TransnetTender.t → pystr)) := [
  (py "nameOfTender", TitleCase, λ r, TenderBase.title (TransnetTender.base r));
  (py "descriptionOfTender", TitleCase,
     λ r, TenderBase.description (TransnetTender.base r));
  (py "tenderNumber", UpperCase, TransnetTender.tender_number);
  (py "nameOfInstitution", UpperCase, TransnetTender.institution);
  (py "tenderCategory", TitleCase, TransnetTender.category);
  (py "tenderType", UpperCase, TransnetTender.tender_type);
  (py "locationOfService", TitleCase, TransnetTender.location);
  (py "contactPersonEmailAddress", LowerCase, TransnetTender.email);
  (py "contactPersonName", TitleCase, TransnetTender.contact_person) ].

Definition text_keys : list pystr := map (λ f, f.1.1) text_fields.


(** The value bound to a text key is a [str], or the key is absent. *)
Definition is_text (v : option PyVal) : bool :=
  match v with
  | None | Some (VStr _) => true
  | Some _ => false
  end.


Definition text_fields_ok (item : gmap pystr PyVal) : bool :=
  forallb (λ k, is_text (item !! k)) text_keys.

(** The identifier of an item is valid when the value under ['rowKey'] is
    present and passes the factory's truth test (for a string: non-empty). *)
Definition valid_identifier (item : gmap pystr PyVal) : bool :=
  truthy (dict_get item (py "rowKey") VNone).

(** An item of the raw collection that is a mapping without valid
    identifier. *)
Definition lacks_identifier (item : PyVal) : bool :=
  match item with
  | VDict d => negb (valid_identifier d)
  | _ => false
  end.

Section Vocabulary.
Context `{UnicodeData} `{Strptime}.

Definition apply_casing (c : Casing) : pystr → pystr :=
  match c with
  | TitleCase => str_title
  | UpperCase => str_upper
  | LowerCase => str_lower
  end.

(** The normalization of a text value under a casing rule. *)
Definition normalize (c : Casing) (s : pystr) : pystr :=
  apply_casing c (str_strip (str_replace (str_replace s LF [SP]) CR [])).





(** What a date field holds for a raw value ([None] when the key is
    absent): null unless the value is a non-empty string the library
    parses with the fixed format. *)
Definition parsed_date (raw : option PyVal) : option datetime :=
  match raw with
  | Some (VStr (c :: s)) => strptime (c :: s) TransnetTender.date_format
  | _ => None
  end.

(** A raw date value fails to parse: it is present, passes the truth test
    and is not a string the library accepts. *)
Definition parse_failure (raw : option PyVal) : bool :=
  match raw with
  | Some v => truthy v && negb (bool_decide (is_Some (parsed_date raw)))
  | None => false
  end.

Definition date_warning (item : gmap pystr PyVal) (key : pystr) : list Event :=
  if parse_failure (item !! key)
  then [Log WARNING (msg_invalid_date (dict_get item (py "rowKey") VNone) key
                       (dict_get item key VNone))]
  else [].

(** The normalized text under a key, when the raw value is a [str] or
    absent. *)
Definition text_value (item : gmap pystr PyVal) (key : pystr) (c : Casing)
    : option pystr :=
  match dict_get item key (VStr []) with
  | VStr s => Some (normalize c s)
  | _ => None
  end.

(** The record the factory builds from an item with a valid identifier,
    read off the source as one expression; [None] when a text value is
    not a [str]. *)
Definition record_of (item : gmap pystr PyVal) : option TransnetTender.t :=
  title ← text_value item (py "nameOfTender") TitleCase;
  description ← text_value item (py "descriptionOfTender") TitleCase;
  tender_number ← text_value item (py "tenderNumber") UpperCase;
  institution ← text_value item (py "nameOfInstitution") UpperCase;
  category ← text_value item (py "tenderCategory") TitleCase;
  tender_type ← text_value item (py "tenderType") UpperCase;
  location ← text_value item (py "locationOfService") TitleCase;
  email ← text_value item (py "contactPersonEmailAddress") LowerCase;
  contact_person ← text_value item (py "contactPersonName") TitleCase;
  Some (TransnetTender.init title description (py "Transnet")
          (parsed_date (item !! py "publishedDate"))
          (parsed_date (item !! py "closingDate"))
          (if truthy (dict_get item (py "attachment") VNone)
           then [SupportingDoc.mk (py "Tender Attachment")
                   (dict_get item (py "attachment") VNone)]
           else [])
          [] tender_number institution category tender_type location email
          contact_person).
End Vocabulary.






(** The queue calls in a trace, in order. *)
Definition sends (t : list Event)
    : list (list Entry * Res SendMessageBatchResult) :=
  omap (λ ev, match ev with
              | SendMessageBatch _ entries outcome => Some (entries, outcome)
              | Log _ _ => None
              end) t.

(** The number of entries a call reports as delivered. *)
Definition confirmed (outcome : Res SendMessageBatchResult) : nat :=
  match outcome with
  | Ok {| Successful := Some l |} => length l
  | _ => 0%nat
  end.

(** The answers of the queue to a sequence of requests made one after the
    other, starting in state [q]. *)
Fixpoint replies {Q} `{SqsClient Q} (q : Q) (requests : list (list Entry))
    : list (Res SendMessageBatchResult) :=
  match requests with
  | [] => []
  | entries :: rest =>
      let '(q', outcome) := send_message_batch q SQS_QUEUE_URL entries in
      outcome :: replies q' rest
  end.

(** The requests the groups call for: the entries of every non-empty group,
    numbered by the position of the group. *)
Definition requests_of `{JsonDumps} (groups : list (list PyVal)) : list (list Entry) :=
  filter (λ entries, entries ≠ []) (imap make_entries groups).

Definition sum_list (ns : list nat) : nat := foldr Nat.add 0%nat ns.

(** The keys of the transport representation of a tender. *)
Definition transport_keys : list pystr := [
  py "title"; py "description"; py "source"; py "publishedDate";
  py "closingDate"; py "supporting_docs"; py "tags"; py "tenderNumber";
  py "institution"; py "category"; py "tenderType"; py "location";
  py "email"; py "contactPerson" ].

(** The transport value of a date attribute. *)
Definition date_value (d : option datetime) : PyVal :=
  match d with
  | Some d => VStr (isoformat d)
  | None => VNone
  end.

(** A timestamp whose fields fit the widths of the ISO rendering, as those
    of every [datetime] do. *)
Definition fits_iso (d : datetime) : Prop :=
  (year d < 10 ^ 4 ∧ month d < 10 ^ 2 ∧ day d < 10 ^ 2 ∧
   hour d < 10 ^ 2 ∧ minute d < 10 ^ 2 ∧ second d < 10 ^ 2)%nat.

Definition dates_fit_iso (r : TransnetTender.t) : Prop :=
  (∀ d, TenderBase.published_date (TransnetTender.base r) = Some d → fits_iso d) ∧
  (∀ d, TenderBase.closing_date (TransnetTender.base r) = Some d → fits_iso d).

(** The items on which the loop body of the pipeline does not raise: a
    mapping that has no valid identifier, or whose text values are strings
    or absent. *)
Definition item_ok (item : PyVal) : bool :=
  match item with
  | VDict d => if valid_identifier d then text_fields_ok d else true
  | _ => false
  end.

(** The record the loop accepts for an item, if any. *)
Definition accepted `{UnicodeData} `{Strptime} (item : PyVal)
    : option TransnetTender.t :=
  match item with
  | VDict d => if valid_identifier d then record_of d else None
  | _ => None
  end.

(** The date warnings the factory logs for an item. *)
Definition item_warnings `{Strptime} (item : PyVal) : list Event :=
  match item with
  | VDict d =>
      if valid_identifier d
      then date_warning d (py "publishedDate") ++ date_warning d (py "closingDate")
      else []
  | _ => []
  end.

(** ** Proof automation *)

Arguments py : simpl never.


(** Two key literals differ. *)
Ltac keys_differ :=
  let E := fresh in intros E; vm_compute in E; discriminate E.

(** Lookup of a key literal in a mapping built by insertions. *)
Ltac lookup_keys :=
  repeat first [ rewrite lookup_insert_eq
               | rewrite lookup_insert_ne by keys_differ ];
  rewrite ?lookup_empty.

(** The value under one key of two equal transport representations. *)
Ltac at_key k H Hk :=
  pose proof (f_equal (λ r : Res (gmap pystr PyVal),
                         match r with Ok m => m !! k | Raise _ => None end) H) as Hk;
  cbn beta iota in Hk.

(** * Properties *)

(** ** The factory as one expression *)

Section FactoryFacts.
Context `{UnicodeData} `{Strptime}.

Lemma date_block_eq (item : gmap pystr PyVal) (tender_id : PyVal) (key : pystr) :
  TransnetTender.date_block (VDict item) tender_id key =
    ((if parse_failure (item !! key)
      then [Log WARNING (msg_invalid_date tender_id key (dict_get item key VNone))]
      else []),
     Ok (parsed_date (item !! key))).
Proof.
  unfold TransnetTender.date_block, parse_failure, parsed_date.
  cbn [py_get lift bind]. unfold dict_get.
  destruct (item !! key) as [v|] eqn:E; cbn; [|reflexivity].
  destruct v as [ | b | z | f | s | l | d]; cbn; rewrite ?E; cbn.
  all: try reflexivity.
  - destruct b; reflexivity.
  - destruct (z =? 0)%Z; reflexivity.
  - destruct f; reflexivity.
  - destruct s as [|c s]; [reflexivity|]. cbn.
    destruct (strptime (c :: s) TransnetTender.date_format); reflexivity.
  - destruct l; reflexivity.
  - destruct (bool_decide (size d = 0%nat)); reflexivity.
Qed.

Lemma text_arg_eq (item : gmap pystr PyVal) (key : pystr) (c : Casing) :
  TransnetTender.text_arg (VDict item) key (apply_casing c) =
    ([], match text_value item key c with
         | Some s => Ok s
         | None => Raise AttributeError
         end).
Proof.
  unfold TransnetTender.text_arg, text_value, normalize.
  cbn. destruct (dict_get item key (VStr [])); reflexivity.
Qed.

Lemma from_api_response_eq (item : gmap pystr PyVal) :
  TransnetTender.from_api_response (VDict item) =
    if valid_identifier item
    then (date_warning item (py "publishedDate") ++ date_warning item (py "closingDate"),
          match record_of item with
          | Some r => Ok (Some r)
          | None => Raise AttributeError
          end)
    else ([], Ok None).
Proof.
  unfold TransnetTender.from_api_response, valid_identifier.
  cbn [py_get lift bind].
  destruct (truthy (dict_get item (py "rowKey") VNone)) eqn:Hid; [|reflexivity].
  cbn [negb ret bind app].
  rewrite !date_block_eq. fold (date_warning item (py "publishedDate")).
  fold (date_warning item (py "closingDate")).
  change (@str_title _) with (apply_casing TitleCase).
  change (@str_upper _) with (apply_casing UpperCase).
  change (@str_lower _) with (apply_casing LowerCase).
  rewrite !text_arg_eq. unfold record_of.
  cbn [bind].
  repeat (match goal with
          | |- context [text_value item ?k ?c] =>
              destruct (text_value item k c); cbn;
              [| rewrite ?app_nil_r; reflexivity]
          end).
  rewrite ?app_nil_r. reflexivity.
Qed.
End FactoryFacts.

(** ** Text normalization *)
















Section TextFacts.
Context `{UnicodeData}.








































End TextFacts.

(** ** The record built by the factory *)

Section RecordFacts.
Context `{UnicodeData} `{Strptime}.

Lemma text_value_text (item : gmap pystr PyVal) key c :
  is_text (item !! key) = true → is_Some (text_value item key c).
Proof.
  unfold text_value, dict_get.
  destruct (item !! key) as [[]|]; cbn; try discriminate; eauto.
Qed.

Lemma text_value_Some (item : gmap pystr PyVal) key c v :
  text_value item key c = Some v →
  is_text (item !! key) = true ∧
  v = normalize c (match item !! key with Some (VStr s) => s | _ => [] end).
Proof.
  unfold text_value, dict_get.
  destruct (item !! key) as [[]|]; cbn; try discriminate; by intros [= <-].
Qed.

Lemma record_of_fields (item : gmap pystr PyVal) r :
  record_of item = Some r →
  ∀ key c attr, (key, c, attr) ∈ text_fields → text_value item key c = Some (attr r).
Proof.
  unfold record_of. intros Hr key c attr Hin.
  repeat match type of Hr with
         | context [text_value item ?k ?rule] =>
             destruct (text_value item k rule) eqn:?; cbn in Hr; [|discriminate Hr]
         end.
  injection Hr as <-. unfold text_fields in Hin.
  repeat (apply elem_of_cons in Hin as [[= -> -> ->] | Hin]; [assumption|]).
  inversion Hin.
Qed.

Lemma record_of_dates (item : gmap pystr PyVal) r :
  record_of item = Some r →
  TenderBase.published_date (TransnetTender.base r)
    = parsed_date (item !! py "publishedDate") ∧
  TenderBase.closing_date (TransnetTender.base r)
    = parsed_date (item !! py "closingDate").
Proof.
  unfold record_of. intros Hr.
  repeat match type of Hr with
         | context [text_value item ?k ?rule] =>
             destruct (text_value item k rule); cbn in Hr; [|discriminate Hr]
         end.
  by injection Hr as <-.
Qed.

Lemma record_of_docs (item : gmap pystr PyVal) r :
  record_of item = Some r →
  TenderBase.supporting_docs (TransnetTender.base r) =
    if truthy (dict_get item (py "attachment") VNone)
    then [SupportingDoc.mk (py "Tender Attachment")
            (dict_get item (py "attachment") VNone)]
    else [].
Proof.
  unfold record_of. intros Hr.
  repeat match type of Hr with
         | context [text_value item ?k ?rule] =>
             destruct (text_value item k rule); cbn in Hr; [|discriminate Hr]
         end.
  by injection Hr as <-.
Qed.

Lemma record_of_tags (item : gmap pystr PyVal) r :
  record_of item = Some r → TenderBase.tags (TransnetTender.base r) = [].
Proof.
  unfold record_of. intros Hr.
  repeat match type of Hr with
         | context [text_value item ?k ?rule] =>
             destruct (text_value item k rule); cbn in Hr; [|discriminate Hr]
         end.
  by injection Hr as <-.
Qed.

(** A record is built exactly when every text value is a [str] or
    absent. *)
Lemma record_of_is_Some (item : gmap pystr PyVal) :
  is_Some (record_of item) ↔ text_fields_ok item = true.
Proof.
  unfold text_fields_ok. rewrite forallb_forall. split.
  - intros [r Hr] key Hkey. apply list_elem_of_In in Hkey.
    unfold text_keys in Hkey. apply list_elem_of_fmap in Hkey as ([[k c] attr] & -> & Hf).
    cbn. by destruct (text_value_Some _ _ _ _ (record_of_fields _ _ Hr _ _ _ Hf)).
  - intros Hok.
    assert (∀ key c attr, (key, c, attr) ∈ text_fields → is_Some (text_value item key c)) as Hv.
    { intros key c attr Hf. apply text_value_text, Hok, list_elem_of_In.
      unfold text_keys. apply list_elem_of_fmap. by exists (key, c, attr). }
    unfold record_of.
    repeat match goal with
           | |- context [text_value item ?k ?rule] =>
               let Hk := fresh in
               destruct (text_value item k rule) eqn:Hk; cbn;
               [| exfalso;
                  assert (is_Some (text_value item k rule)) as [? Hs];
                  [ eapply Hv; unfold text_fields;
                    repeat first [ apply list_elem_of_here
                                 | apply list_elem_of_further ]
                  | rewrite Hk in Hs; discriminate Hs ] ]
           end.
    eauto.
Qed.

Lemma record_of_None (item : gmap pystr PyVal) :
  text_fields_ok item = false → record_of item = None.
Proof.
  intros Hno. destruct (record_of item) eqn:Hr; [|done].
  assert (text_fields_ok item = true) by (apply record_of_is_Some; eauto).
  congruence.
Qed.

(** The identifier is not an input of the record. *)
Lemma record_of_insert_rowKey (item : gmap pystr PyVal) id :
  record_of (<[py "rowKey" := id]> item) = record_of item.
Proof.
  unfold record_of, text_value, dict_get.
  rewrite !lookup_insert_ne by keys_differ. reflexivity.
Qed.

Lemma text_fields_ok_insert_rowKey (item : gmap pystr PyVal) id :
  text_fields_ok (<[py "rowKey" := id]> item) = text_fields_ok item.
Proof.
  unfold text_fields_ok. cbn. rewrite !lookup_insert_ne by keys_differ. reflexivity.
Qed.

Lemma valid_identifier_insert (item : gmap pystr PyVal) id :
  valid_identifier (<[py "rowKey" := id]> item) = truthy id.
Proof. unfold valid_identifier, dict_get. by rewrite lookup_insert_eq. Qed.

Lemma normalize_empty c : normalize c [] = [].
Proof. by destruct c. Qed.
End RecordFacts.

(** ** Properties of the factory *)

(** C1, as stated, fails: the record has no attribute that holds the
    identifier.  Two items that differ only in ['rowKey'] yield the same
    record, so no reading of a record returns the identifier of both. *)
Lemma identifier_not_carried :
  ¬ ∃ tender_id_of : TransnetTender.t → PyVal,
      ∀ item, item ∈ [item_abc; item_xyz] →
        valid_identifier item = true ∧
        ∃ t r,
          @TransnetTender.from_api_response ucd_excerpt strptime_padded (VDict item)
            = (t, Ok (Some r))
          ∧ tender_id_of r = dict_get item (py "rowKey") VNone.
Proof.
  intros (tender_id_of & Hid).
  destruct (Hid item_abc) as (_ & t1 & r1 & H1 & E1); [set_solver|].
  destruct (Hid item_xyz) as (_ & t2 & r2 & H2 & E2); [set_solver|].
  vm_compute in H1, H2. injection H1 as _ <-. injection H2 as _ <-.
  rewrite E1 in E2. vm_compute in E2. discriminate E2.
Qed.

(** C1, amended: for every raw item whose identifier is present and
    non-empty and whose text values are strings or absent, the factory
    returns a record; the record does not hold the identifier: it is the
    same record whatever non-empty identifier the item carries. *)
Theorem record_independent_of_identifier `{UnicodeData} `{Strptime}
    (item : gmap pystr PyVal) (id id' : PyVal) :
  truthy id = true → truthy id' = true → text_fields_ok item = true →
  ∃ r t t',
    TransnetTender.from_api_response (VDict (<[py "rowKey" := id]> item))
      = (t, Ok (Some r)) ∧
    TransnetTender.from_api_response (VDict (<[py "rowKey" := id']> item))
      = (t', Ok (Some r)).
Proof.
  intros Hid Hid' Hok.
  destruct (proj2 (record_of_is_Some item) Hok) as [r Hr].
  exists r. eexists _, _.
  rewrite !from_api_response_eq, !valid_identifier_insert, Hid, Hid'.
  rewrite !record_of_insert_rowKey, Hr. split; reflexivity.
Qed.

Lemma record_independent_of_identifier_witness :
  truthy (VStr (py "abc123")) = true ∧ truthy (VInt 7) = true ∧
  text_fields_ok sample_item = true ∧
  ∃ r t t',
    @TransnetTender.from_api_response ucd_excerpt strptime_padded
      (VDict (<[py "rowKey" := VStr (py "abc123")]> sample_item)) = (t, Ok (Some r)) ∧
    @TransnetTender.from_api_response ucd_excerpt strptime_padded
      (VDict (<[py "rowKey" := VInt 7]> sample_item)) = (t', Ok (Some r)).
Proof.
  split; [reflexivity|]. split; [reflexivity|]. split; [reflexivity|].
  apply (@record_independent_of_identifier ucd_excerpt strptime_padded);
    reflexivity.
Defined.






(** C4: for every raw item with a valid identifier the two date values are
    parsed one by one with the format ['%m/%d/%Y %I:%M:%S %p'].  Each date
    attribute depends on its own raw value only: it is null when the value
    is absent, empty or not accepted by the parser, and the parsed timestamp
    otherwise; a warning is logged for exactly the values that fail to
    parse.  No date value makes the factory raise: a record is returned
    whenever the text values are strings or absent, and the only exception
    that escapes is the [AttributeError] of a text value that is not a
    string. *)
Theorem dates_parsed_independently `{UnicodeData} `{Strptime}
    (item : gmap pystr PyVal) :
  valid_identifier item = true →
  TransnetTender.date_format = py "%m/%d/%Y %I:%M:%S %p" ∧
  (TransnetTender.from_api_response (VDict item)).1
    = date_warning item (py "publishedDate") ++ date_warning item (py "closingDate") ∧
  (text_fields_ok item = true →
   ∃ r, (TransnetTender.from_api_response (VDict item)).2 = Ok (Some r) ∧
        TenderBase.published_date (TransnetTender.base r)
          = parsed_date (item !! py "publishedDate") ∧
        TenderBase.closing_date (TransnetTender.base r)
          = parsed_date (item !! py "closingDate")) ∧
  (text_fields_ok item = false →
   (TransnetTender.from_api_response (VDict item)).2 = Raise AttributeError).
Proof.
  intros Hid. rewrite from_api_response_eq, Hid. cbn [fst snd].
  split_and!; [reflexivity | reflexivity | |].
  - intros Hok. destruct (proj2 (record_of_is_Some item) Hok) as [r Hr].
    exists r. rewrite Hr. split; [done|]. by apply record_of_dates.
  - intros Hno. by rewrite (record_of_None item Hno).
Qed.

Lemma dates_parsed_independently_witness :
  valid_identifier item_untidy = true ∧
  TransnetTender.date_format = py "%m/%d/%Y %I:%M:%S %p" ∧
  (@TransnetTender.from_api_response ucd_excerpt strptime_padded (VDict item_untidy)).1
    = @date_warning strptime_padded item_untidy (py "publishedDate")
      ++ @date_warning strptime_padded item_untidy (py "closingDate") ∧
  (text_fields_ok item_untidy = true →
   ∃ r, (@TransnetTender.from_api_response ucd_excerpt strptime_padded
           (VDict item_untidy)).2 = Ok (Some r) ∧
        TenderBase.published_date (TransnetTender.base r)
          = @parsed_date strptime_padded (item_untidy !! py "publishedDate") ∧
        TenderBase.closing_date (TransnetTender.base r)
          = @parsed_date strptime_padded (item_untidy !! py "closingDate")) ∧
  (text_fields_ok item_untidy = false →
   (@TransnetTender.from_api_response ucd_excerpt strptime_padded
      (VDict item_untidy)).2 = Raise AttributeError).
Proof.
  split; [reflexivity|].
  apply (@dates_parsed_independently ucd_excerpt strptime_padded item_untidy).
  reflexivity.
Defined.

(** C8: in every record the factory produces, the document collection is
    the single document named "Tender Attachment" whose url is the raw
    attachment value, unchanged, when that value is present and non-empty,
    and is empty when it is absent or empty; it never holds more than one
    document. *)
Theorem attachment_yields_at_most_one_document `{UnicodeData} `{Strptime}
    (item : gmap pystr PyVal) (t : list Event) (r : TransnetTender.t) :
  TransnetTender.from_api_response (VDict item) = (t, Ok (Some r)) →
  let docs := TenderBase.supporting_docs (TransnetTender.base r) in
  match item !! py "attachment" with
  | Some link =>
      if truthy link
      then docs = [SupportingDoc.mk (py "Tender Attachment") link]
      else docs = []
  | None => docs = []
  end ∧ (length docs ≤ 1)%nat.
Proof.
  intros Hr. rewrite from_api_response_eq in Hr.
  destruct (valid_identifier item); [|discriminate Hr].
  destruct (record_of item) as [r'|] eqn:Hrec; [|discriminate Hr].
  injection Hr as _ <-. cbn zeta. rewrite (record_of_docs _ _ Hrec).
  unfold dict_get. destruct (item !! py "attachment") as [link|]; cbn.
  - destruct (truthy link); cbn; split; (done || lia).
  - split; (done || lia).
Qed.

Lemma attachment_yields_at_most_one_document_witness :
  ∃ t r,
    @TransnetTender.from_api_response ucd_excerpt strptime_padded (VDict sample_item)
      = (t, Ok (Some r)) ∧
    TenderBase.supporting_docs (TransnetTender.base r)
      = [SupportingDoc.mk (py "Tender Attachment")
           (VStr (py "https://example.com/doc.pdf"))] ∧
    (length (TenderBase.supporting_docs (TransnetTender.base r)) ≤ 1)%nat.
Proof.
  eexists _, _. split; [vm_compute; reflexivity|].
  exact (@attachment_yields_at_most_one_document ucd_excerpt strptime_padded
           sample_item _ _ eq_refl).
Defined.

(** C10, as stated, fails: for the item whose title is null the factory
    raises [AttributeError], not [TypeError], and the pipeline does not turn
    it into a skip. *)
Lemma null_text_is_not_a_type_error :
  valid_identifier item_null_title = true ∧
  item_null_title !! py "nameOfTender" = Some VNone ∧
  ¬ ((@TransnetTender.from_api_response ucd_excerpt strptime_padded
        (VDict item_null_title)).2 = Raise TypeError ∧
     ∃ t acc, @process_items ucd_excerpt strptime_padded [VDict item_null_title]
                = (t, Ok acc) ∧ skipped_count acc = 1%nat).
Proof.
  split; [reflexivity|]. split; [reflexivity|].
  intros [Hraise _]. vm_compute in Hraise. discriminate Hraise.
Qed.

(** C10, amended: for every raw item with a valid identifier in which a
    text key is bound to null, the factory produces no record: it raises
    [AttributeError]; with the key absent instead, a record the factory
    produces holds the empty string in that attribute. *)
Theorem null_text_raises_attribute_error `{UnicodeData} `{Strptime}
    (item : gmap pystr PyVal) key c attr :
  valid_identifier item = true →
  (key, c, attr) ∈ text_fields →
  item !! key = Some VNone →
  (TransnetTender.from_api_response (VDict item)).2 = Raise AttributeError ∧
  ∀ t r, TransnetTender.from_api_response (VDict (delete key item)) = (t, Ok (Some r)) →
         attr r = [].
Proof.
  intros Hid Hf Hnull. split.
  - rewrite from_api_response_eq, Hid. cbn.
    rewrite record_of_None; [done|].
    apply not_true_is_false. intros Hok.
    unfold text_fields_ok in Hok. rewrite forallb_forall in Hok.
    assert (is_text (item !! key) = true) as Hk.
    { apply Hok, list_elem_of_In. unfold text_keys.
      apply list_elem_of_fmap. by exists (key, c, attr). }
    rewrite Hnull in Hk. discriminate Hk.
  - intros t r Hr. rewrite from_api_response_eq in Hr.
    destruct (valid_identifier (delete key item)); [|discriminate Hr].
    destruct (record_of (delete key item)) as [r'|] eqn:Hrec; [|discriminate Hr].
    injection Hr as _ <-.
    destruct (text_value_Some _ _ _ _ (record_of_fields _ _ Hrec _ _ _ Hf)) as [_ ->].
    rewrite lookup_delete_eq. apply normalize_empty.
Qed.

Lemma null_text_raises_attribute_error_witness :
  valid_identifier item_null_title = true ∧
  (py "nameOfTender", TitleCase,
   λ r, TenderBase.title (TransnetTender.base r)) ∈ text_fields ∧
  item_null_title !! py "nameOfTender" = Some VNone ∧
  (@TransnetTender.from_api_response ucd_excerpt strptime_padded
     (VDict item_null_title)).2 = Raise AttributeError ∧
  ∀ t r, @TransnetTender.from_api_response ucd_excerpt strptime_padded
           (VDict (delete (py "nameOfTender") item_null_title)) = (t, Ok (Some r)) →
         TenderBase.title (TransnetTender.base r) = [].
Proof.
  split; [reflexivity|]. split; [apply list_elem_of_here|]. split; [reflexivity|].
  apply (@null_text_raises_attribute_error ucd_excerpt strptime_padded
           item_null_title (py "nameOfTender") TitleCase
           (λ r, TenderBase.title (TransnetTender.base r)));
    [reflexivity | apply list_elem_of_here | reflexivity].
Defined.

(** ** The normalization pipeline *)

Lemma sends_app (t1 t2 : list Event) : sends (t1 ++ t2) = sends t1 ++ sends t2.
Proof. apply omap_app. Qed.

Lemma sends_cons url entries outcome (t : list Event) :
  sends (SendMessageBatch url entries outcome :: t) = (entries, outcome) :: sends t.
Proof. reflexivity. Qed.

Lemma sends_log lvl m (t : list Event) : sends (Log lvl m :: t) = sends t.
Proof. reflexivity. Qed.

Section PipelineFacts.
Context `{UnicodeData} `{Strptime}.

(** The loop body, by the shape of the item. *)
Lemma process_item_eq (acc : Normalized) (item : PyVal) :
  process_item acc item =
    match item with
    | VDict d =>
        if valid_identifier d
        then (date_warning d (py "publishedDate") ++ date_warning d (py "closingDate"),
              match record_of d with
              | Some r =>
                  Ok (mk_Normalized (processed_tenders acc ++ [r]) (skipped_count acc))
              | None => Raise AttributeError
              end)
        else ([], Ok (mk_Normalized (processed_tenders acc) (skipped_count acc + 1)))
    | _ => ([], Raise AttributeError)
    end.
Proof.
  unfold process_item. destruct item; try reflexivity.
  rewrite from_api_response_eq.
  destruct (valid_identifier d); [|reflexivity].
  destruct (record_of d); cbn; by rewrite ?app_nil_r.
Qed.

(** The only exception the loop body lets through is [AttributeError];
    its handler never runs. *)
Lemma process_item_outcome (acc : Normalized) (item : PyVal) t out :
  process_item acc item = (t, out) →
  (∀ id e, Log WARNING (msg_skipping id e) ∉ t) ∧
  sends t = [] ∧
  match out with
  | Ok acc' =>
      if lacks_identifier item
      then acc' = mk_Normalized (processed_tenders acc) (skipped_count acc + 1)
      else ∃ r, acc' = mk_Normalized (processed_tenders acc ++ [r]) (skipped_count acc)
                ∧ TenderBase.tags (TransnetTender.base r) = []
  | Raise e => e = AttributeError
  end.
Proof.
  rewrite process_item_eq. destruct item; try (intros [= <- <-]; set_solver).
  cbn [lacks_identifier]. destruct (valid_identifier d); cbn [negb].
  - intros [= <- <-]. split_and!.
    + intros id e. unfold date_warning.
      destruct (parse_failure _), (parse_failure _); cbn; set_solver.
    + unfold date_warning.
      by destruct (parse_failure _), (parse_failure _).
    + destruct (record_of d) as [r|] eqn:Hr; [|done].
      exists r. split; [done|]. by apply (record_of_tags d).
  - intros [= <- <-]. set_solver.
Qed.

Lemma for_each_process_item (items : list PyVal) :
  ∀ acc t acc',
    for_each items acc process_item = (t, Ok acc') →
    Forall (λ r, TenderBase.tags (TransnetTender.base r) = []) (processed_tenders acc) →
    skipped_count acc'
      = (skipped_count acc + length (filter (λ i, lacks_identifier i = true) items))%nat ∧
    (length (processed_tenders acc') + skipped_count acc'
      = length (processed_tenders acc) + skipped_count acc + length items)%nat ∧
    Forall (λ r, TenderBase.tags (TransnetTender.base r) = []) (processed_tenders acc') ∧
    (∀ id e, Log WARNING (msg_skipping id e) ∉ t) ∧
    sends t = [].
Proof.
  induction items as [|item items IH]; intros acc t acc'; cbn [for_each].
  - intros [= <- <-] Htags. cbn. split_and!; [lia | lia | done | set_solver | done].
  - destruct (process_item acc item) as [t1 [acc1|e]] eqn:Hitem; cbn [bind];
      [|discriminate].
    destruct (for_each items acc1 process_item) as [t2 out] eqn:Hrest.
    intros [= <- ->] Htags.
    destruct (process_item_outcome _ _ _ _ Hitem) as (Hlog & Hs1 & Hacc1).
    rewrite filter_cons, sends_app, Hs1.
    destruct (lacks_identifier item) eqn:Hlack.
    + subst acc1. destruct (IH _ _ _ Hrest Htags) as (Hs & Hn & Ht & Hl & Hs2).
      cbn in *. rewrite decide_True by done. cbn.
      split_and!; [lia | lia | done | set_solver | done].
    + destruct Hacc1 as (r & -> & Hr).
      destruct (IH _ _ _ Hrest) as (Hs & Hn & Ht & Hl & Hs2).
      { cbn. apply Forall_app. split; [done|]. by constructor. }
      cbn in *. rewrite decide_False by done. rewrite length_app in Hn. cbn in Hn.
      split_and!; [lia | lia | done | set_solver | done].
Qed.

Lemma process_items_Ok (items : list PyVal) t acc :
  process_items items = (t, Ok acc) →
  skipped_count acc = length (filter (λ i, lacks_identifier i = true) items) ∧
  (length (processed_tenders acc) + skipped_count acc = length items)%nat ∧
  Forall (λ r, TenderBase.tags (TransnetTender.base r) = []) (processed_tenders acc) ∧
  (∀ id e, Log WARNING (msg_skipping id e) ∉ t) ∧
  sends t = [].
Proof.
  unfold process_items.
  destruct (for_each items (mk_Normalized [] 0) process_item) as [t1 [acc1|e]] eqn:Hloop;
    cbn [bind]; [|discriminate].
  destruct (for_each_process_item _ _ _ _ Hloop) as (Hs & Hn & Ht & Hl & Hs2);
    [by constructor|].
  cbn in Hs, Hn.
  destruct (0 <? skipped_count acc1)%nat; cbn; intros [= <- <-];
    (split_and!; [lia | lia | done | | by rewrite sends_app, Hs2]);
    intros id e; rewrite !elem_of_app; set_solver.
Qed.
End PipelineFacts.

(** The loop, item by item. *)
Lemma omap_cons_match {A B} (f : A → option B) (x : A) (l : list A) :
  omap f (x :: l) = match f x with
                    | Some y => y :: omap f l
                    | None => omap f l
                    end.
Proof. reflexivity. Qed.

Section PipelineOrder.
Context `{UnicodeData} `{Strptime}.

Lemma item_ok_accepted (item : PyVal) :
  item_ok item = true →
  if lacks_identifier item then accepted item = None
  else ∃ r, accepted item = Some r.
Proof.
  destruct item; try discriminate. cbn.
  destruct (valid_identifier d); cbn; [|done].
  intros Hok. by apply record_of_is_Some.
Qed.

Lemma process_item_ok (acc : Normalized) (item : PyVal) :
  item_ok item = true →
  process_item acc item
  = (item_warnings item,
     Ok (mk_Normalized
           (processed_tenders acc ++ match accepted item with
                                     | Some r => [r]
                                     | None => []
                                     end)
           (skipped_count acc + if lacks_identifier item then 1 else 0))).
Proof.
  intros Hok. rewrite process_item_eq. destruct item; try discriminate.
  cbn in *. destruct (valid_identifier d); cbn.
  - destruct (proj2 (record_of_is_Some d) Hok) as [r ->].
    do 3 f_equal. lia.
  - by rewrite app_nil_r.
Qed.

Lemma process_item_not_ok (acc : Normalized) (item : PyVal) :
  item_ok item = false →
  process_item acc item = (item_warnings item, Raise AttributeError).
Proof.
  intros Hno. rewrite process_item_eq. destruct item; try reflexivity.
  cbn in *. destruct (valid_identifier d); [|discriminate].
  by rewrite (record_of_None d Hno).
Qed.

Lemma for_each_all_ok (items : list PyVal) :
  ∀ acc,
    forallb item_ok items = true →
    for_each items acc process_item
    = (flat_map item_warnings items,
       Ok (mk_Normalized
             (processed_tenders acc ++ omap accepted items)
             (skipped_count acc
              + length (filter (λ i, lacks_identifier i = true) items)))).
Proof.
  induction items as [|item items IH]; intros acc; cbn [for_each forallb].
  - intros _. cbn. destruct acc. cbn. by rewrite app_nil_r, Nat.add_0_r.
  - intros [Hitem Hrest]%andb_true_iff.
    rewrite (process_item_ok acc item Hitem). cbn [bind].
    rewrite (IH _ Hrest). cbn [processed_tenders skipped_count flat_map].
    rewrite filter_cons. f_equal. f_equal. f_equal.
    + rewrite <- app_assoc. f_equal. rewrite omap_cons_match.
      by destruct (accepted item).
    + destruct (lacks_identifier item).
      * rewrite decide_True by done. cbn. lia.
      * rewrite decide_False by done. lia.
Qed.

Lemma sends_item_warnings (item : PyVal) : sends (item_warnings item) = [].
Proof.
  destruct item; try reflexivity. cbn.
  destruct (valid_identifier d); [|reflexivity]. unfold date_warning.
  by destruct (parse_failure _), (parse_failure _).
Qed.

Lemma for_each_not_all_ok (items : list PyVal) :
  ∀ acc,
    forallb item_ok items = false →
    ∃ t, for_each items acc process_item = (t, Raise AttributeError) ∧ sends t = [].
Proof.
  induction items as [|item items IH]; intros acc; cbn [for_each forallb];
    [discriminate|].
  destruct (item_ok item) eqn:Hitem; cbn [andb].
  - intros Hrest. rewrite (process_item_ok acc item Hitem). cbn [bind].
    destruct (IH (mk_Normalized
                    (processed_tenders acc ++ match accepted item with
                                              | Some r => [r]
                                              | None => []
                                              end)
                    (skipped_count acc + if lacks_identifier item then 1 else 0))
                 Hrest) as (t & -> & Hs).
    eexists. split; [reflexivity|]. by rewrite sends_app, sends_item_warnings, Hs.
  - intros _. rewrite (process_item_not_ok acc item Hitem). cbn.
    eexists. split; [reflexivity|]. apply sends_item_warnings.
Qed.

Lemma process_items_all_ok (items : list PyVal) :
  forallb item_ok items = true →
  process_items items
  = (flat_map item_warnings items
     ++ [Log INFO (msg_processed (length (omap accepted items)))]
     ++ (if (0 <? length (filter (λ i, lacks_identifier i = true) items))%nat
         then [Log WARNING
                 (msg_skipped_total
                    (length (filter (λ i, lacks_identifier i = true) items)))]
         else []),
     Ok (mk_Normalized (omap accepted items)
           (length (filter (λ i, lacks_identifier i = true) items)))).
Proof.
  intros Hok. unfold process_items. rewrite (for_each_all_ok items _ Hok).
  cbn [bind processed_tenders skipped_count app Nat.add logging].
  destruct (0 <? length (filter (λ i, lacks_identifier i = true) items))%nat;
    cbn; by rewrite ?app_nil_r.
Qed.

Lemma process_items_not_all_ok (items : list PyVal) :
  forallb item_ok items = false →
  ∃ t, process_items items = (t, Raise AttributeError) ∧ sends t = [].
Proof.
  intros Hno. unfold process_items.
  destruct (for_each_not_all_ok items (mk_Normalized [] 0) Hno) as (t & -> & Hs).
  cbn. eauto.
Qed.


End PipelineOrder.




(** C7: the code at the failing input.  The first item has a valid
    identifier and a null title: the factory raises [AttributeError], the
    handler [except (KeyError, ValueError, TypeError)] does not match, the
    exception leaves the pipeline and the handler, and the second, valid
    item is never processed. *)
Lemma attribute_error_escapes_pipeline :
  @process_item ucd_excerpt strptime_padded (mk_Normalized [] 0) (VDict item_null_title)
    = ([], Raise AttributeError) ∧
  @process_items ucd_excerpt strptime_padded collection_null_first
    = ([], Raise AttributeError) ∧
  (@lambda_handler ucd_excerpt strptime_padded json_dumps_braces unit sqs_accepting
     (Ok (document collection_null_first)) tt VNone VNone).2.2 = Raise AttributeError.
Proof. split_and!; vm_compute; reflexivity. Qed.

(** ** The batcher *)

Lemma message_batches_eq {A} (l : list A) :
  message_batches l
  = map (λ k, take 10 (drop (k * 10) l)) (seq 0 ((length l + 9) / 10)).
Proof.
  unfold message_batches, py_range, batch_size.
  rewrite map_map, Nat.sub_0_r. cbn [Nat.sub].
  apply map_ext. intros k. unfold py_slice.
  replace (0 + k * 10 + 10 - (0 + k * 10))%nat with 10%nat by lia. reflexivity.
Qed.

Lemma concat_chunks {A} (l : list A) (m : nat) :
  concat (map (λ k, take 10 (drop (k * 10) l)) (seq 0 m)) = take (m * 10) l.
Proof.
  induction m as [|m IH]; [by rewrite take_0|].
  rewrite seq_S, map_app, concat_app, IH. cbn. rewrite app_nil_r.
  rewrite take_take_drop. f_equal. lia.
Qed.

Lemma ceil_div_10 (n : nat) :
  let m := ((n + 9) / 10)%nat in (n ≤ 10 * m ∧ 10 * m < n + 10)%nat.
Proof.
  cbn zeta. pose proof (Nat.div_mod_eq (n + 9) 10).
  pose proof (Nat.mod_upper_bound (n + 9) 10). lia.
Qed.

(** C5: the batcher is a function of the input sequence alone.  For N
    records it yields ceil(N/10) groups (the least m with N <= 10 m); their
    concatenation in order is the input sequence; every group holds between
    1 and 10 records and every group but the last exactly 10; no records
    give no groups. *)
Theorem batches_partition {A} (records : list A) :
  let groups := message_batches records in
  let N := length records in
  length groups = ((N + 9) / 10)%nat ∧
  (N ≤ 10 * length groups ∧ 10 * length groups < N + 10)%nat ∧
  concat groups = records ∧
  (∀ i g, groups !! i = Some g →
     (1 ≤ length g ∧ length g ≤ 10)%nat ∧
     ((i + 1 < length groups)%nat → length g = 10%nat)) ∧
  (N = 0%nat → groups = []).
Proof.
  cbn zeta. rewrite message_batches_eq.
  pose proof (ceil_div_10 (length records)) as Hm. cbn zeta in Hm.
  set (m := ((length records + 9) / 10)%nat) in *.
  rewrite length_map, length_seq. split_and!; try lia.
  - rewrite concat_chunks. apply take_ge. lia.
  - intros i g Hg. rewrite list_lookup_fmap in Hg.
    destruct (seq 0 m !! i) as [k|] eqn:Hk; [|discriminate Hg].
    apply lookup_seq in Hk as [-> Hi]. cbn in Hg. injection Hg as <-.
    rewrite length_take, length_drop. lia.
  - intros HN. assert (m = 0%nat) as -> by lia. reflexivity.
Qed.

Lemma batches_partition_witness :
  message_batches (seq 0 25) = [seq 0 10; seq 10 10; seq 20 5] ∧
  let groups := message_batches (seq 0 25) in
  let N := length (seq 0 25) in
  length groups = ((N + 9) / 10)%nat ∧
  (N ≤ 10 * length groups ∧ 10 * length groups < N + 10)%nat ∧
  concat groups = seq 0 25 ∧
  (∀ i g, groups !! i = Some g →
     (1 ≤ length g ∧ length g ≤ 10)%nat ∧
     ((i + 1 < length groups)%nat → length g = 10%nat)) ∧
  (N = 0%nat → groups = []).
Proof. split; [reflexivity|]. exact (batches_partition (seq 0 25)). Defined.

(** ** The dispatcher *)

Section DispatchFacts.
Context `{JsonDumps} {Q : Type} `{SqsClient Q}.

Lemma length_make_entries (batch_index : nat) (batch : list PyVal) :
  length (make_entries batch_index batch) = length batch.
Proof. unfold make_entries. apply length_imap. Qed.

(** One send: the call is made once, its outcome decides the count, and
    nothing but log records follows it. *)
Lemma send_one_eq (q : Q) (sent_count : nat) (entries : list Entry) :
  ∃ logs,
    send_one q sent_count entries
    = ((send_message_batch q SQS_QUEUE_URL entries).1,
       (SendMessageBatch SQS_QUEUE_URL entries
          (send_message_batch q SQS_QUEUE_URL entries).2 :: logs,
        Ok (sent_count + confirmed (send_message_batch q SQS_QUEUE_URL entries).2)%nat))
    ∧ sends logs = [].
Proof.
  unfold send_one.
  destruct (send_message_batch q SQS_QUEUE_URL entries) as [q' [response|e]]; cbn.
  - destruct response as [[succ|] [[|f fs]|]]; cbn; eexists; split; reflexivity.
  - rewrite Nat.add_0_r. eexists; split; reflexivity.
Qed.

Lemma send_batches_eq (batches : list (list PyVal)) :
  ∀ (batch_index : nat) (q : Q) (sent_count : nat),
    let requests :=
      filter (λ entries, entries ≠ [])
             (imap (λ i, make_entries (batch_index + i)) batches) in
    ∃ q' t,
      send_batches batches batch_index q sent_count
      = (q', (t, Ok (sent_count + sum_list (map confirmed (replies q requests)))%nat))
      ∧ sends t = zip requests (replies q requests).
Proof.
  induction batches as [|batch rest IH]; intros batch_index q sent_count; cbn zeta.
  - exists q, []. cbn. by rewrite Nat.add_0_r.
  - rewrite imap_cons, Nat.add_0_r.
    rewrite (imap_ext _ (λ i, make_entries (S batch_index + i)))
      by (intros; cbn; f_equal; lia).
    rewrite filter_cons. cbn [send_batches].
    destruct (make_entries batch_index batch) as [|e es] eqn:Hentries.
    + rewrite decide_False by (intros Hne; by apply Hne). apply IH.
    + rewrite decide_True by done.
      destruct (send_one_eq q sent_count (e :: es)) as (logs & -> & Hlogs).
      cbn [replies].
      destruct (send_message_batch q SQS_QUEUE_URL (e :: es)) as [q1 outcome]. cbn [fst snd].
      destruct (IH (S batch_index) q1 (sent_count + confirmed outcome)%nat)
        as (q' & t & -> & Hsends).
      exists q'. eexists. split.
      * cbn [map sum_list foldr]. do 3 f_equal. unfold sum_list. lia.
      * by rewrite sends_app, sends_cons, Hlogs, Hsends.
Qed.

(** The whole loop, from the first group on. *)
Lemma send_batches_from_0 (groups : list (list PyVal)) (q : Q) :
  ∃ q' t,
    send_batches groups 0 q 0
    = (q', (t, Ok (sum_list (map confirmed (replies q (requests_of groups))))))
    ∧ sends t = zip (requests_of groups) (replies q (requests_of groups)).
Proof. exact (send_batches_eq groups 0 q 0). Qed.

Lemma requests_of_length (groups : list (list PyVal)) :
  length (requests_of groups) = length (filter (λ g, g ≠ []) groups).
Proof.
  unfold requests_of.
  change make_entries with (λ i, make_entries (0 + i)). generalize 0%nat.
  induction groups as [|g groups IH]; intros n; [done|].
  rewrite imap_cons, !filter_cons.
  rewrite (imap_ext _ (λ i, make_entries (S n + i))) by (intros; cbn; f_equal; lia).
  pose proof (length_make_entries (n + 0) g) as Hlen.
  destruct (make_entries (n + 0) g), g; try discriminate Hlen.
  - rewrite !decide_False by (intros Hne; by apply Hne). apply IH.
  - rewrite !decide_True by done. cbn [length]. f_equal. apply IH.
Qed.

Lemma replies_length (q : Q) (requests : list (list Entry)) :
  length (replies q requests) = length requests.
Proof.
  revert q. induction requests as [|r rs IH]; intros q; [done|]. cbn.
  destruct (send_message_batch q SQS_QUEUE_URL r). cbn. by rewrite IH.
Qed.
End DispatchFacts.

(** C6: for every sequence of groups and every behaviour of the queue, the
    dispatcher calls the queue once for each non-empty group, in order, with
    the entries of that group, whatever the earlier calls answered or raised
    (no retry, no abort, no call for an empty group), and its final
    sent-count is the sum, over these calls, of the entries the queue
    reported as successful. *)
Theorem dispatch_counts_confirmed `{JsonDumps} {Q : Type} `{SqsClient Q}
    (groups : list (list PyVal)) (q : Q) :
  let requests := requests_of groups in
  let answers := replies q requests in
  ∃ q' t,
    send_batches groups 0 q 0 = (q', (t, Ok (sum_list (map confirmed answers)))) ∧
    sends t = zip requests answers ∧
    length answers = length requests ∧
    length requests = length (filter (λ g, g ≠ []) groups) ∧
    Forall (λ entries, entries ≠ []) requests.
Proof.
  cbn zeta. destruct (send_batches_from_0 groups q) as (q' & t & Hrun & Hsends).
  exists q', t. split_and!.
  - exact Hrun.
  - exact Hsends.
  - apply replies_length.
  - apply requests_of_length.
  - unfold requests_of. apply Forall_forall. intros entries Hin.
    by apply list_elem_of_filter in Hin as [? _].
Qed.

Lemma dispatch_counts_confirmed_witness :
  let groups := [[VInt 1; VInt 2]; []; [VInt 3]; [VInt 4; VInt 5; VInt 6]] in
  let requests := @requests_of json_dumps_braces groups in
  let answers := @replies nat sqs_flaky 0%nat requests in
  map confirmed answers = [1; 0; 3]%nat ∧
  ∃ q' t,
    @send_batches json_dumps_braces nat sqs_flaky groups 0 0%nat 0
      = (q', (t, Ok (sum_list (map confirmed answers)))) ∧
    sends t = zip requests answers ∧
    length answers = length requests ∧
    length requests = length (filter (λ g, g ≠ []) groups) ∧
    Forall (λ entries, entries ≠ []) requests.
Proof.
  split; [reflexivity|].
  exact (@dispatch_counts_confirmed json_dumps_braces nat sqs_flaky
           [[VInt 1; VInt 2]; []; [VInt 3]; [VInt 4; VInt 5; VInt 6]] 0%nat).
Defined.

(** ** The handler *)

Section HandlerFacts.
Context `{UnicodeData} `{Strptime} `{JsonDumps} {Q : Type} `{SqsClient Q}.

Lemma to_dicts_Ok (tenders : list TransnetTender.t) :
  Forall (λ r, TenderBase.tags (TransnetTender.base r) = []) tenders →
  ∃ dicts, to_dicts tenders = Ok dicts ∧ length dicts = length tenders.
Proof.
  induction 1 as [|tender rest Htags _ (dicts & IH & Hlen)]; [by exists []|].
  cbn [to_dicts]. unfold TransnetTender.to_dict, TenderBase.to_dict.
  rewrite Htags, IH. cbn [TenderBase.tags_to_dict].
  eexists. split; [reflexivity|]. cbn. by rewrite Hlen.
Qed.

Lemma lambda_handler_fetch_failure (e : exn) (q : Q) (event context : PyVal) :
  except_ [RequestException; JSONDecodeError] e = true →
  ∃ m error,
    lambda_handler (Raise e) q event context
    = (q, ([Log INFO msg_starting; Log INFO (msg_fetching TRANSNET_API_URL);
            Log ERROR m],
           Ok (mk_Summary 502 (body_error_json error)))).
Proof.
  intros He. destruct e; try discriminate He; eexists _, _; reflexivity.
Qed.

Lemma lambda_handler_success (doc : PyVal) (items : list PyVal)
    (t1 : list Event) (acc : Normalized) (q : Q) (event context : PyVal) :
  py_get doc (py "result") (VList []) = Ok (VList items) →
  process_items items = (t1, Ok acc) →
  ∃ q' t dicts,
    lambda_handler (Ok doc) q event context
    = (q', (t, Ok (mk_Summary 200
                     (body_message (py "Tender data processed and sent to SQS queue.")))))
    ∧ to_dicts (processed_tenders acc) = Ok dicts
    ∧ sends t = zip (requests_of (message_batches dicts))
                    (replies q (requests_of (message_batches dicts)))
    ∧ last t = Some (Log INFO (msg_complete
                 (sum_list (map confirmed
                    (replies q (requests_of (message_batches dicts))))))).
Proof.
  intros Hget Hrun.
  destruct (process_items_Ok _ _ _ Hrun) as (_ & _ & Htags & _ & Hs1).
  destruct (to_dicts_Ok _ Htags) as (dicts & Hdicts & _).
  destruct (send_batches_from_0 (message_batches dicts) q) as (q' & ts & Hsend & Hsends).
  unfold lambda_handler, fetch.
  cbn [bind lift logging ret app]. rewrite Hget.
  cbn [bind lift logging ret app py_len try_except py_iter]. rewrite Hrun.
  cbn [bind lift logging ret app]. rewrite Hdicts, Hsend.
  cbn [bind lift logging ret app].
  exists q'. eexists. exists dicts. split; [reflexivity|]. split; [done|]. split.
  - rewrite !sends_log, !sends_app, Hs1, Hsends. cbn. by rewrite app_nil_r.
  - rewrite !app_comm_cons, !app_assoc. apply last_snoc.
Qed.
End HandlerFacts.

(** C9, as stated, fails: the completion message is a fixed text.  Two
    successful runs on the same fetched document, one with a queue that
    confirms the entry and one with a queue that fails, return the same
    summary although their sent-counts, logged as the last record, are 1
    and 0. *)
Lemma summary_omits_sent_count :
  ∃ t1 t0 summary,
    @lambda_handler ucd_excerpt strptime_padded json_dumps_braces unit sqs_accepting
      (Ok (document [VDict sample_item])) tt VNone VNone = (tt, (t1, Ok summary)) ∧
    @lambda_handler ucd_excerpt strptime_padded json_dumps_braces unit sqs_failing
      (Ok (document [VDict sample_item])) tt VNone VNone = (tt, (t0, Ok summary)) ∧
    last t1 = Some (Log INFO (msg_complete 1)) ∧
    last t0 = Some (Log INFO (msg_complete 0)) ∧
    body summary = body_message (py "Tender data processed and sent to SQS queue.") ∧
    (∀ c, c ∈ py "Tender data processed and sent to SQS queue." → digit c = None).
Proof.
  eexists _, _, _. split; [vm_compute; reflexivity|]. split; [vm_compute; reflexivity|].
  split; [reflexivity|]. split; [reflexivity|]. split; [reflexivity|].
  apply Forall_forall. vm_compute. repeat constructor.
Qed.

(** C9, amended: on a fetch failure (a request exception or a JSON decoding
    error) the handler returns status 502 with an error description, after
    the fetch log records only: nothing is normalized or sent and the queue
    is untouched.  On a run whose fetch succeeded and whose normalization
    completes, the handler returns status 200 with the fixed message "Tender
    data processed and sent to SQS queue."; the aggregate sent-count, the
    sum of the entries confirmed over all queue calls, is reported in the
    last log record, not in the summary. *)
Theorem run_summary `{UnicodeData} `{Strptime} `{JsonDumps} {Q : Type} `{SqsClient Q}
    (e : exn) (doc : PyVal) (items : list PyVal) (t1 : list Event)
    (acc : Normalized) (q : Q) (event context : PyVal) :
  except_ [RequestException; JSONDecodeError] e = true →
  py_get doc (py "result") (VList []) = Ok (VList items) →
  process_items items = (t1, Ok acc) →
  (∃ m error,
     lambda_handler (Raise e) q event context
     = (q, ([Log INFO msg_starting; Log INFO (msg_fetching TRANSNET_API_URL);
             Log ERROR m],
            Ok (mk_Summary 502 (body_error_json error))))) ∧
  (∃ q' t dicts,
     lambda_handler (Ok doc) q event context
     = (q', (t, Ok (mk_Summary 200
                      (body_message (py "Tender data processed and sent to SQS queue.")))))
     ∧ to_dicts (processed_tenders acc) = Ok dicts
     ∧ sends t = zip (requests_of (message_batches dicts))
                     (replies q (requests_of (message_batches dicts)))
     ∧ last t = Some (Log INFO (msg_complete
                  (sum_list (map confirmed
                     (replies q (requests_of (message_batches dicts)))))))).
Proof.
  intros He Hget Hrun. split.
  - by apply lambda_handler_fetch_failure.
  - by apply (lambda_handler_success doc items t1 acc).
Qed.

Lemma run_summary_witness :
  except_ [RequestException; JSONDecodeError] RequestsJSONDecodeError = true ∧
  py_get (document collection_mixed) (py "result") (VList []) = Ok (VList collection_mixed) ∧
  ∃ t1 acc,
    @process_items ucd_excerpt strptime_padded collection_mixed = (t1, Ok acc) ∧
    (∃ m error,
       @lambda_handler ucd_excerpt strptime_padded json_dumps_braces nat sqs_flaky
         (Raise RequestsJSONDecodeError) 0%nat VNone VNone
       = (0%nat, ([Log INFO msg_starting; Log INFO (msg_fetching TRANSNET_API_URL);
                   Log ERROR m],
                  Ok (mk_Summary 502 (body_error_json error))))) ∧
    (∃ q' t dicts,
       @lambda_handler ucd_excerpt strptime_padded json_dumps_braces nat sqs_flaky
         (Ok (document collection_mixed)) 0%nat VNone VNone
       = (q', (t, Ok (mk_Summary 200
                        (body_message (py "Tender data processed and sent to SQS queue.")))))
       ∧ @to_dicts (processed_tenders acc) = Ok dicts
       ∧ sends t = zip (@requests_of json_dumps_braces (message_batches dicts))
                       (@replies nat sqs_flaky 0%nat
                          (@requests_of json_dumps_braces (message_batches dicts)))
       ∧ last t = Some (Log INFO (msg_complete
                    (sum_list (map confirmed
                       (@replies nat sqs_flaky 0%nat
                          (@requests_of json_dumps_braces (message_batches dicts)))))))).
Proof.
  split; [reflexivity|]. split; [reflexivity|].
  eexists _, _. split; [vm_compute; reflexivity|].
  eapply (@run_summary ucd_excerpt strptime_padded json_dumps_braces nat sqs_flaky
            RequestsJSONDecodeError (document collection_mixed) collection_mixed);
    [reflexivity | reflexivity | vm_compute; reflexivity].
Defined.

(** ** The repository's unit tests and the scenarios of the specification,
    replayed on the embedding *)

Example test_from_api_response_valid :
  ∃ t tender,
    @TransnetTender.from_api_response ucd_excerpt strptime_padded (VDict sample_item)
      = (t, Ok (Some tender)) ∧
    TransnetTender.tender_number tender = py "TN123" ∧
    TransnetTender.location tender = py "Durban" ∧
    TransnetTender.email tender = py "contact@transnet.co.za" ∧
    length (TenderBase.supporting_docs (TransnetTender.base tender)) = 1%nat ∧
    TenderBase.published_date (TransnetTender.base tender)
      = Some (mk_datetime 2025 10 1 9 0 0) ∧
    TenderBase.closing_date (TransnetTender.base tender)
      = Some (mk_datetime 2025 10 31 16 0 0).
Proof. eexists _, _. split; [vm_compute; reflexivity|]. repeat split. Qed.

Example test_from_api_response_missing_id :
  @TransnetTender.from_api_response ucd_excerpt strptime_padded (VDict item_without_id)
    = ([], Ok None).
Proof. reflexivity. Qed.

Example test_to_dict_structure :
  ∃ data,
    TransnetTender.to_dict unit_test_tender = Ok data ∧
    data !! py "title" = Some (VStr (py "Rail Upgrade")) ∧
    data !! py "email" = Some (VStr (py "contact@transnet.co.za")) ∧
    data !! py "publishedDate" = Some (VStr (py "2025-10-01T09:00:00")) ∧
    data !! py "supporting_docs"
      = Some (VList [SupportingDoc.to_dict
                       (SupportingDoc.mk (py "Doc") (VStr (py "https://example.com")))]).
Proof. eexists. split; [reflexivity|]. repeat split; vm_compute; reflexivity. Qed.

(** Scenario A: 25 valid items give 25 records, groups of sizes 10, 10 and
    5, and with a queue that confirms everything a sent-count of 25. *)
Example scenario_25_items :
  ∃ t,
    @lambda_handler ucd_excerpt strptime_padded json_dumps_braces unit sqs_accepting
      (Ok (document (replicate 25 (VDict sample_item)))) tt VNone VNone
    = (tt, (t, Ok (mk_Summary 200
                     (body_message (py "Tender data processed and sent to SQS queue.")))))
    ∧ map (λ call, length call.1) (sends t) = [10; 10; 5]%nat
    ∧ last t = Some (Log INFO (msg_complete 25)).
Proof. eexists. split; [vm_compute; reflexivity|]. split; reflexivity. Qed.

(** Scenario C: a malformed published date leaves the record in place with
    a null date and one warning that names the identifier. *)
Example scenario_malformed_date :
  ∃ tender,
    @TransnetTender.from_api_response ucd_excerpt strptime_padded (VDict item_untidy)
    = ([Log WARNING (msg_invalid_date (VStr (py "T-2")) (py "publishedDate")
                       (VStr (py "13/45/2025 99:00:00 XM")))],
       Ok (Some tender))
    ∧ TenderBase.published_date (TransnetTender.base tender) = None
    ∧ TenderBase.closing_date (TransnetTender.base tender)
      = Some (mk_datetime 2024 2 29 0 30 0)
    ∧ TenderBase.title (TransnetTender.base tender) = py "Supply Of They'Re Rails"
    ∧ TransnetTender.email tender = py "jane.doe@transnet.net".
Proof. eexists. split; [vm_compute; reflexivity|]. repeat split. Qed.

(** Scenario D: an empty collection gives no record, no group, no queue
    call and a successful run with sent-count 0. *)
Example scenario_empty_collection :
  @lambda_handler ucd_excerpt strptime_padded json_dumps_braces unit sqs_accepting
    (Ok (document [])) tt VNone VNone
  = (tt, ([Log INFO msg_starting; Log INFO (msg_fetching TRANSNET_API_URL);
           Log INFO (msg_fetched 0); Log INFO (msg_processed 0);
           Log INFO (msg_complete 0)],
          Ok (mk_Summary 200
                (body_message (py "Tender data processed and sent to SQS queue."))))).
Proof. vm_compute. reflexivity. Qed.

(** * Further properties of the code *)

(** ** The transport representation ([to_dict]) *)

Lemma to_dict_no_tags (self : TransnetTender.t) :
  TenderBase.tags (TransnetTender.base self) = [] →
  TransnetTender.to_dict self
  = Ok (<[py "contactPerson" := VStr (TransnetTender.contact_person self)]>
       (<[py "email" := VStr (TransnetTender.email self)]>
       (<[py "location" := VStr (TransnetTender.location self)]>
       (<[py "tenderType" := VStr (TransnetTender.tender_type self)]>
       (<[py "category" := VStr (TransnetTender.category self)]>
       (<[py "institution" := VStr (TransnetTender.institution self)]>
       (<[py "tenderNumber" := VStr (TransnetTender.tender_number self)]>
       (<[py "title" := VStr (TenderBase.title (TransnetTender.base self))]>
       (<[py "description" := VStr (TenderBase.description (TransnetTender.base self))]>
       (<[py "source" := VStr (TenderBase.source (TransnetTender.base self))]>
       (<[py "publishedDate" :=
            date_value (TenderBase.published_date (TransnetTender.base self))]>
       (<[py "closingDate" :=
            date_value (TenderBase.closing_date (TransnetTender.base self))]>
       (<[py "supporting_docs" :=
            VList (map SupportingDoc.to_dict
                     (TenderBase.supporting_docs (TransnetTender.base self)))]>
       (<[py "tags" := VList []]> ∅)))))))))))))).
Proof.
  intros Htags. unfold TransnetTender.to_dict, TenderBase.to_dict.
  rewrite Htags. reflexivity.
Qed.

(** X1: the transport representation of a tender without tags has exactly
    the fourteen keys of the two [to_dict] methods, and each key holds the
    attribute it is named after: [update] overwrites none of the base
    keys. *)
Theorem to_dict_fields (self : TransnetTender.t) :
  TenderBase.tags (TransnetTender.base self) = [] →
  ∃ data,
    TransnetTender.to_dict self = Ok data ∧
    dom data = list_to_set transport_keys ∧
    data !! py "title" = Some (VStr (TenderBase.title (TransnetTender.base self))) ∧
    data !! py "description"
      = Some (VStr (TenderBase.description (TransnetTender.base self))) ∧
    data !! py "source" = Some (VStr (TenderBase.source (TransnetTender.base self))) ∧
    data !! py "publishedDate"
      = Some (date_value (TenderBase.published_date (TransnetTender.base self))) ∧
    data !! py "closingDate"
      = Some (date_value (TenderBase.closing_date (TransnetTender.base self))) ∧
    data !! py "supporting_docs"
      = Some (VList (map SupportingDoc.to_dict
                       (TenderBase.supporting_docs (TransnetTender.base self)))) ∧
    data !! py "tags" = Some (VList []) ∧
    data !! py "tenderNumber" = Some (VStr (TransnetTender.tender_number self)) ∧
    data !! py "institution" = Some (VStr (TransnetTender.institution self)) ∧
    data !! py "category" = Some (VStr (TransnetTender.category self)) ∧
    data !! py "tenderType" = Some (VStr (TransnetTender.tender_type self)) ∧
    data !! py "location" = Some (VStr (TransnetTender.location self)) ∧
    data !! py "email" = Some (VStr (TransnetTender.email self)) ∧
    data !! py "contactPerson" = Some (VStr (TransnetTender.contact_person self)).
Proof.
  intros Htags. eexists. split; [by apply to_dict_no_tags|].
  split.
  - rewrite !dom_insert_L, dom_empty_L. unfold transport_keys. cbn [list_to_set].
    set_solver.
  - split_and!; lookup_keys; reflexivity.
Qed.

Lemma to_dict_fields_witness :
  TenderBase.tags (TransnetTender.base unit_test_tender) = [] ∧
  ∃ data,
    TransnetTender.to_dict unit_test_tender = Ok data ∧
    dom data = list_to_set transport_keys ∧
    data !! py "title" = Some (VStr (py "Rail Upgrade")) ∧
    data !! py "contactPerson" = Some (VStr (py "John Doe")).
Proof.
  split; [reflexivity|].
  destruct (to_dict_fields unit_test_tender eq_refl)
    as (data & Hd & Hdom & Htitle & H).
  exists data. split_and!; [done | done | exact Htitle | apply H].
Defined.



Lemma to_dict_Ok_tags (self : TransnetTender.t) data :
  TransnetTender.to_dict self = Ok data →
  TenderBase.tags (TransnetTender.base self) = [].
Proof.
  unfold TransnetTender.to_dict, TenderBase.to_dict.
  by destruct (TenderBase.tags (TransnetTender.base self)).
Qed.

Lemma length_zero_padded w n : length (zero_padded w n) = w.
Proof.
  revert n. induction w as [|w IH]; intros n; cbn [zero_padded]; [done|].
  rewrite length_app, IH. cbn. lia.
Qed.

Lemma zero_padded_inj w n m :
  (n < 10 ^ w)%nat → (m < 10 ^ w)%nat →
  zero_padded w n = zero_padded w m → n = m.
Proof.
  revert n m. induction w as [|w IH]; intros n m Hn Hm; cbn [zero_padded].
  - cbn in Hn, Hm. lia.
  - intros [Hdiv Hmod]%app_inj_tail.
    assert (n mod 10 = m mod 10)%nat as Hmod'.
    { pose proof (Nat.mod_upper_bound n 10). pose proof (Nat.mod_upper_bound m 10). lia. }
    assert (n / 10 = m / 10)%nat as Hdiv'.
    { apply IH; [| |done].
      - apply Nat.Div0.div_lt_upper_bound. rewrite Nat.pow_succ_r' in Hn. lia.
      - apply Nat.Div0.div_lt_upper_bound. rewrite Nat.pow_succ_r' in Hm. lia. }
    rewrite (Nat.div_mod_eq n 10), (Nat.div_mod_eq m 10). lia.
Qed.

Lemma isoformat_inj d1 d2 :
  fits_iso d1 → fits_iso d2 → isoformat d1 = isoformat d2 → d1 = d2.
Proof.
  intros (Hy1 & Hm1 & Hd1 & Hh1 & Hi1 & Hs1) (Hy2 & Hm2 & Hd2 & Hh2 & Hi2 & Hs2).
  unfold isoformat. intros H.
  do 10 (apply app_inj_1 in H as [? H];
           [| by rewrite ?length_zero_padded]).
  destruct d1, d2; cbn [year month day hour minute second] in *.
  f_equal; eapply zero_padded_inj; eassumption.
Qed.

Lemma date_value_inj p q :
  (∀ d, p = Some d → fits_iso d) → (∀ d, q = Some d → fits_iso d) →
  date_value p = date_value q → p = q.
Proof.
  destruct p as [d1|], q as [d2|]; cbn [date_value]; intros H1 H2 H; try done.
  f_equal. apply isoformat_inj; [by apply H1 | by apply H2 | congruence].
Qed.

Lemma SupportingDoc_to_dict_inj (a b : SupportingDoc.t) :
  SupportingDoc.to_dict a = SupportingDoc.to_dict b → a = b.
Proof.
  unfold SupportingDoc.to_dict. intros H.
  pose proof (f_equal (λ v, match v with
                            | VDict d => d !! py "name"
                            | _ => None
                            end) H) as Hn.
  pose proof (f_equal (λ v, match v with
                            | VDict d => d !! py "url"
                            | _ => None
                            end) H) as Hu.
  cbn beta iota in Hn, Hu. clear H. revert Hn Hu. lookup_keys.
  destruct a, b; cbn. by intros [= ->] [= ->].
Qed.

Lemma map_SupportingDoc_to_dict_inj (l k : list SupportingDoc.t) :
  map SupportingDoc.to_dict l = map SupportingDoc.to_dict k → l = k.
Proof.
  revert k. induction l as [|a l IH]; intros [|b k]; cbn [map]; try done.
  intros H.
  pose proof (f_equal (λ l, match l with
                            | x :: _ => x
                            | [] => SupportingDoc.to_dict a
                            end) H) as Hab.
  pose proof (f_equal (λ l, match l with _ :: l' => l' | [] => [] end) H) as Hlk.
  cbn beta iota in Hab, Hlk.
  f_equal; [by apply SupportingDoc_to_dict_inj | by apply IH].
Qed.

(** X3: the transport representation loses nothing: two tenders whose
    [to_dict] results are equal are the same tender (for timestamps in the
    range of [datetime], whose ISO rendering has fixed widths). *)
Theorem to_dict_injective (a b : TransnetTender.t) (data : gmap pystr PyVal) :
  TransnetTender.to_dict a = Ok data →
  TransnetTender.to_dict b = Ok data →
  dates_fit_iso a → dates_fit_iso b →
  a = b.
Proof.
  intros Ha Hb [Hpa Hca] [Hpb Hcb].
  pose proof (to_dict_Ok_tags _ _ Ha) as Hta.
  pose proof (to_dict_Ok_tags _ _ Hb) as Htb.
  rewrite (to_dict_no_tags a Hta) in Ha. rewrite (to_dict_no_tags b Htb) in Hb.
  rewrite <- Hb in Ha. clear Hb.
  at_key (py "title") Ha H1.
  at_key (py "description") Ha H2.
  at_key (py "source") Ha H3.
  at_key (py "publishedDate") Ha H4.
  at_key (py "closingDate") Ha H5.
  at_key (py "supporting_docs") Ha H6.
  at_key (py "tenderNumber") Ha H7.
  at_key (py "institution") Ha H8.
  at_key (py "category") Ha H9.
  at_key (py "tenderType") Ha H10.
  at_key (py "location") Ha H11.
  at_key (py "email") Ha H12.
  at_key (py "contactPerson") Ha H13.
  clear Ha.
  revert H1 H2 H3 H4 H5 H6 H7 H8 H9 H10 H11 H12 H13. lookup_keys.
  destruct a as [[ta da sa pa ca docsa tagsa] na ia cata tya la ea cpa].
  destruct b as [[tb db sb pb cb docsb tagsb] nb ib catb tyb lb eb cpb].
  cbn in *. subst tagsa tagsb.
  intros [= ->] [= ->] [= ->] [= Hp] [= Hc] [= Hdocs]
         [= ->] [= ->] [= ->] [= ->] [= ->] [= ->] [= ->].
  apply date_value_inj in Hp as ->; [|done|done].
  apply date_value_inj in Hc as ->; [|done|done].
  apply map_SupportingDoc_to_dict_inj in Hdocs as ->.
  reflexivity.
Qed.

Lemma to_dict_injective_witness :
  ∃ data,
    TransnetTender.to_dict unit_test_tender = Ok data ∧
    dates_fit_iso unit_test_tender ∧
    unit_test_tender = unit_test_tender.
Proof.
  eexists. split; [reflexivity|].
  assert (dates_fit_iso unit_test_tender) as Hfit.
  { split; intros d [= <-]; unfold fits_iso; cbn; lia. }
  split; [exact Hfit|].
  exact (to_dict_injective unit_test_tender unit_test_tender _ eq_refl eq_refl Hfit Hfit).
Defined.

(** X4: every record the factory produces has the source "Transnet" and no
    tags, whatever the raw item holds under such keys, and can be
    serialized: [to_dict] succeeds on it, and its two date entries are the
    ISO rendering of the parsed raw values, or null. *)
Theorem factory_records_serialize `{UnicodeData} `{Strptime}
    (item : gmap pystr PyVal) (t : list Event) (r : TransnetTender.t) :
  TransnetTender.from_api_response (VDict item) = (t, Ok (Some r)) →
  TenderBase.source (TransnetTender.base r) = py "Transnet" ∧
  TenderBase.tags (TransnetTender.base r) = [] ∧
  ∃ data,
    TransnetTender.to_dict r = Ok data ∧
    data !! py "source" = Some (VStr (py "Transnet")) ∧
    data !! py "tags" = Some (VList []) ∧
    data !! py "publishedDate"
      = Some (date_value (parsed_date (item !! py "publishedDate"))) ∧
    data !! py "closingDate"
      = Some (date_value (parsed_date (item !! py "closingDate"))).
Proof.
  intros Hr. rewrite from_api_response_eq in Hr.
  destruct (valid_identifier item); [|discriminate Hr].
  destruct (record_of item) as [r'|] eqn:Hrec; [|discriminate Hr].
  injection Hr as _ <-.
  pose proof (record_of_tags _ _ Hrec) as Htags.
  destruct (record_of_dates _ _ Hrec) as [Hp Hc].
  assert (TenderBase.source (TransnetTender.base r') = py "Transnet") as Hsrc.
  { unfold record_of in Hrec.
    repeat match type of Hrec with
           | context [text_value item ?k ?rule] =>
               destruct (text_value item k rule); cbn in Hrec; [|discriminate Hrec]
           end.
    by injection Hrec as <-. }
  split; [done|]. split; [done|].
  eexists. split; [by apply to_dict_no_tags|].
  rewrite Hsrc, Hp, Hc. split_and!; lookup_keys; reflexivity.
Qed.

Lemma factory_records_serialize_witness :
  ∃ t r data,
    @TransnetTender.from_api_response ucd_excerpt strptime_padded (VDict item_untidy)
      = (t, Ok (Some r)) ∧
    TransnetTender.to_dict r = Ok data ∧
    data !! py "source" = Some (VStr (py "Transnet")) ∧
    data !! py "publishedDate" = Some VNone ∧
    data !! py "closingDate" = Some (VStr (py "2024-02-29T00:30:00")).
Proof.
  destruct (@factory_records_serialize ucd_excerpt strptime_padded item_untidy
              _ _ eq_refl) as (_ & _ & data & Hd & Hs & _ & Hp & Hc).
  eexists _, _, data. split; [vm_compute; reflexivity|].
  split; [exact Hd|]. split; [exact Hs|]. split; [exact Hp | exact Hc].
Defined.

(** ** The normalization pipeline, item by item *)

(** X5: a run of the pipeline that completes accepts the records of the
    items with a valid identifier, one per item and in the order of the raw
    collection. *)
Theorem pipeline_preserves_order `{UnicodeData} `{Strptime}
    (api_data : list PyVal) (t : list Event) (result : Normalized) :
  process_items api_data = (t, Ok result) →
  processed_tenders result = omap accepted api_data ∧
  Forall2 (λ item r, ∃ d, item = VDict d ∧ valid_identifier d = true
                          ∧ record_of d = Some r)
          (filter (λ i, lacks_identifier i = false) api_data)
          (processed_tenders result).
Proof.
  intros Hrun.
  destruct (forallb item_ok api_data) eqn:Hok.
  2: { destruct (process_items_not_all_ok _ Hok) as (t' & Ht' & _).
       rewrite Ht' in Hrun. discriminate Hrun. }
  rewrite (process_items_all_ok _ Hok) in Hrun. injection Hrun as _ <-.
  cbn [processed_tenders]. split; [done|].
  clear t. induction api_data as [|item items IH]; [constructor|].
  cbn [forallb] in Hok. apply andb_true_iff in Hok as [Hitem Hrest].
  rewrite filter_cons, omap_cons_match.
  pose proof (item_ok_accepted item Hitem) as Hacc.
  destruct (lacks_identifier item) eqn:Hlack.
  - rewrite decide_False by done. rewrite Hacc. by apply IH.
  - rewrite decide_True by done. destruct Hacc as [r Hr]. rewrite Hr.
    constructor; [|by apply IH].
    destruct item; try discriminate Hr. cbn in Hr, Hlack.
    destruct (valid_identifier d) eqn:Hv; [|discriminate Hr]. eauto.
Qed.

Lemma pipeline_preserves_order_witness :
  ∃ t result r,
    @process_items ucd_excerpt strptime_padded
      [VDict item_without_id; VDict item_abc; VDict sample_item] = (t, Ok result) ∧
    @accepted ucd_excerpt strptime_padded (VDict item_abc) = Some r ∧
    processed_tenders result
      = @omap list _ _ _ (@accepted ucd_excerpt strptime_padded)
          [VDict item_without_id; VDict item_abc; VDict sample_item] ∧
    processed_tenders result !! 0%nat = Some r.
Proof.
  eexists _, _, _. split; [vm_compute; reflexivity|].
  split; [vm_compute; reflexivity|].
  destruct (@pipeline_preserves_order ucd_excerpt strptime_padded
              [VDict item_without_id; VDict item_abc; VDict sample_item] _ _ eq_refl)
    as [Hp _].
  split; [exact Hp | reflexivity].
Defined.

(** X6: what a completed run of the pipeline logs: the date warnings of the
    items, in the order of the items; then the number of accepted records;
    then, only if at least one item was skipped, a warning with the skip
    count.  Nothing is logged per skipped item. *)
Theorem pipeline_log `{UnicodeData} `{Strptime}
    (api_data : list PyVal) (t : list Event) (result : Normalized) :
  process_items api_data = (t, Ok result) →
  t = flat_map item_warnings api_data
      ++ [Log INFO (msg_processed (length (processed_tenders result)))]
      ++ (if (0 <? skipped_count result)%nat
          then [Log WARNING (msg_skipped_total (skipped_count result))]
          else []) ∧
  (∀ item, lacks_identifier item = true → item_warnings item = []).
Proof.
  intros Hrun. split.
  - destruct (forallb item_ok api_data) eqn:Hok.
    2: { destruct (process_items_not_all_ok _ Hok) as (t' & Ht' & _).
         rewrite Ht' in Hrun. discriminate Hrun. }
    rewrite (process_items_all_ok _ Hok) in Hrun. by injection Hrun as <- <-.
  - intros [] Hl; try discriminate Hl. cbn in *.
    by destruct (valid_identifier d).
Qed.

Lemma pipeline_log_witness :
  ∃ t result,
    @process_items ucd_excerpt strptime_padded
      [VDict item_untidy; VDict item_without_id] = (t, Ok result) ∧
    t = [Log WARNING (msg_invalid_date (VStr (py "T-2")) (py "publishedDate")
                        (VStr (py "13/45/2025 99:00:00 XM")));
         Log INFO (msg_processed 1);
         Log WARNING (msg_skipped_total 1)].
Proof.
  assert (∃ t result,
            @process_items ucd_excerpt strptime_padded
              [VDict item_untidy; VDict item_without_id] = (t, Ok result))
    as (t & result & Hrun) by (eexists _, _; vm_compute; reflexivity).
  destruct (@pipeline_log ucd_excerpt strptime_padded _ _ _ Hrun) as [Ht _].
  exists t, result. split; [exact Hrun|].
  vm_compute in Hrun. injection Hrun as <- <-.
  etrans; [exact Ht|]. vm_compute. reflexivity.
Defined.


(** ** The batcher, by position *)

Lemma concat_message_batches {A} (l : list A) : concat (message_batches l) = l.
Proof.
  rewrite message_batches_eq, concat_chunks. apply take_ge.
  pose proof (ceil_div_10 (length l)) as Hm. cbn zeta in Hm. lia.
Qed.

Lemma message_batches_lookup {A} (l : list A) (i : nat) (g : list A) :
  message_batches l !! i = Some g → g = take 10 (drop (i * 10) l).
Proof.
  rewrite message_batches_eq, list_lookup_fmap.
  destruct (seq 0 ((length l + 9) / 10) !! i) as [k|] eqn:Hk; [|discriminate].
  apply lookup_seq in Hk as [-> _]. cbn. by intros [= <-].
Qed.

(** X8: the batcher keeps positions: the record at position [j] of group
    [i] is the record at position [10 i + j] of the input, and the record at
    position [k] of the input is at position [k mod 10] of group
    [k / 10]. *)
Theorem batches_keep_positions {A} (records : list A) (i j k : nat)
    (g : list A) (x : A) :
  message_batches records !! i = Some g →
  (j < 10)%nat →
  records !! k = Some x →
  g !! j = records !! (10 * i + j)%nat ∧
  ∃ g', message_batches records !! (k / 10)%nat = Some g' ∧
        g' !! (k mod 10)%nat = Some x.
Proof.
  intros Hg Hj Hx. split.
  - pose proof (message_batches_lookup _ _ _ Hg) as ->.
    rewrite lookup_take_lt by done. rewrite lookup_drop. f_equal. lia.
  - pose proof (lookup_lt_Some _ _ _ Hx) as Hk.
    pose proof (Nat.div_mod_eq k 10) as Hdm.
    pose proof (Nat.mod_upper_bound k 10) as Hr.
    pose proof (ceil_div_10 (length records)) as Hm. cbn zeta in Hm.
    exists (take 10 (drop (k / 10 * 10) records)). split.
    + rewrite message_batches_eq, list_lookup_fmap, lookup_seq_lt by lia.
      reflexivity.
    + rewrite lookup_take_lt by lia. rewrite lookup_drop, <- Hx. f_equal. lia.
Qed.

Lemma batches_keep_positions_witness :
  message_batches (seq 0 25) !! 2%nat = Some (seq 20 5) ∧
  (3 < 10)%nat ∧
  seq 0 25 !! 17%nat = Some 17%nat ∧
  seq 20 5 !! 3%nat = seq 0 25 !! (10 * 2 + 3)%nat ∧
  ∃ g', message_batches (seq 0 25) !! (17 / 10)%nat = Some g' ∧
        g' !! (17 mod 10)%nat = Some 17%nat.
Proof.
  split; [reflexivity|]. split; [lia|]. split; [reflexivity|].
  apply (batches_keep_positions (seq 0 25) 2 3 17 (seq 20 5) 17%nat);
    [reflexivity | lia | reflexivity].
Defined.

(** ** The entries of a run *)

Lemma py_String (c : ascii) (s : string) : py (String c s) = N_of_ascii c :: py s.
Proof. reflexivity. Qed.

Lemma py_inj (s1 s2 : string) : py s1 = py s2 → s1 = s2.
Proof.
  revert s2. induction s1 as [|c1 s1 IH]; intros [|c2 s2]; try done.
  rewrite !py_String. intros [= Hc Hs].
  f_equal; [|by apply IH].
  by rewrite <- (ascii_N_embedding c1), <- (ascii_N_embedding c2), Hc.
Qed.

Lemma pretty_N_go_no_underscore (x : N) (s : string) :
  95 ∉ py s → 95 ∉ py (pretty_N_go x s).
Proof.
  revert s. induction (N.lt_wf_0 x) as [x _ IH]; intros s Hs.
  assert (x = 0 ∨ 0 < x)%N as [-> | Hx] by lia.
  - by rewrite pretty_N_go_0.
  - rewrite pretty_N_go_step by done. apply IH; [by apply N.div_lt|].
    rewrite py_String, not_elem_of_cons. split; [|done].
    unfold pretty_N_char. by repeat case_match.
Qed.

Lemma str_of_nat_no_underscore (n : nat) : 95 ∉ str_of_nat n.
Proof.
  unfold str_of_nat, pretty, pretty_nat, pretty, pretty_N.
  case_decide.
  - change (py "0") with [48]. intros Hin.
    apply elem_of_cons in Hin as [Hin | Hin]; [discriminate Hin | by apply elem_of_nil in Hin].
  - apply pretty_N_go_no_underscore. apply not_elem_of_nil.
Qed.

Lemma str_of_nat_inj (n m : nat) : str_of_nat n = str_of_nat m → n = m.
Proof. unfold str_of_nat. intros H%py_inj. by apply (inj pretty). Qed.

Lemma split_at_separator {A} (u : A) (a a' b b' : list A) :
  u ∉ a → u ∉ a' → a ++ u :: b = a' ++ u :: b' → a = a' ∧ b = b'.
Proof.
  revert a'. induction a as [|x a IH]; intros [|x' a'] Ha Ha'; cbn.
  - by intros [= ->].
  - intros [= <- _]. set_solver.
  - intros [= -> _]. set_solver.
  - intros [= -> H]. destruct (IH a') as [-> ->]; [set_solver | set_solver | done |].
    done.
Qed.

Lemma elem_of_concat {A} (x : A) (ls : list (list A)) :
  x ∈ concat ls → ∃ l, x ∈ l ∧ l ∈ ls.
Proof.
  induction ls as [|l ls IH]; cbn; [by intros ?%elem_of_nil|].
  intros [Hx | Hx]%elem_of_app.
  - exists l. split; [done | apply list_elem_of_here].
  - destruct (IH Hx) as (l' & ? & ?). exists l'. split; [done|].
    by apply list_elem_of_further.
Qed.

Section EntryFacts.
Context `{JsonDumps}.

(** The [Id] of the entry at position [i] of batch [batch_index]. *)
Lemma make_entries_lookup (batch_index i : nat) (batch : list PyVal) (e : Entry) :
  make_entries batch_index batch !! i = Some e →
  ∃ tender_dict,
    batch !! i = Some tender_dict ∧
    Id e = py "tender_message_" ++ str_of_nat batch_index ++ py "_" ++ str_of_nat i ∧
    MessageBody e = json_dumps tender_dict ∧
    MessageGroupId e = py "TransnetTenderScrape".
Proof.
  unfold make_entries. rewrite list_lookup_imap.
  destruct (batch !! i) as [d|]; [|discriminate]. cbn. intros [= <-]. eauto.
Qed.

Lemma entry_id_inj (b1 i1 b2 i2 : nat) :
  py "tender_message_" ++ str_of_nat b1 ++ py "_" ++ str_of_nat i1
  = py "tender_message_" ++ str_of_nat b2 ++ py "_" ++ str_of_nat i2 →
  b1 = b2 ∧ i1 = i2.
Proof.
  intros H1%app_inv_head.
  change (py "_") with [95] in H1. cbn [app] in H1.
  apply split_at_separator in H1 as [Hb Hi]; try apply str_of_nat_no_underscore.
  split; by apply str_of_nat_inj.
Qed.

Lemma make_entries_ids_from (groups : list (list PyVal)) :
  ∀ n,
    NoDup (map Id (concat (imap (λ k, make_entries (n + k)) groups))) ∧
    ∀ x, x ∈ map Id (concat (imap (λ k, make_entries (n + k)) groups)) →
         ∃ b i, (n ≤ b)%nat ∧
                x = py "tender_message_" ++ str_of_nat b ++ py "_" ++ str_of_nat i.
Proof.
  induction groups as [|g groups IH]; intros n.
  - split; [constructor|]. cbn. intros x Hx. by apply elem_of_nil in Hx.
  - rewrite imap_cons.
    rewrite (imap_ext _ (λ k, make_entries (S n + k))) by (intros; cbn; f_equal; lia).
    cbn [concat]. rewrite map_app. destruct (IH (S n)) as [Hnd Hids].
    assert (∀ x, x ∈ map Id (make_entries (n + 0) g) →
                 ∃ i, x = py "tender_message_" ++ str_of_nat n ++ py "_" ++ str_of_nat i)
      as Hfirst.
    { intros x Hx. apply list_elem_of_fmap in Hx as (e & -> & He).
      apply list_elem_of_lookup in He as [i Hi].
      apply make_entries_lookup in Hi as (_ & _ & -> & _). rewrite Nat.add_0_r. eauto. }
    split.
    + apply NoDup_app. split_and!; [| |done].
      * apply NoDup_alt. intros i j x Hi Hj.
        rewrite list_lookup_fmap in Hi, Hj.
        destruct (make_entries (n + 0) g !! i) as [ei|] eqn:Hei; [|discriminate Hi].
        destruct (make_entries (n + 0) g !! j) as [ej|] eqn:Hej; [|discriminate Hj].
        apply make_entries_lookup in Hei as (_ & _ & Hidi & _).
        apply make_entries_lookup in Hej as (_ & _ & Hidj & _).
        cbn in Hi, Hj. injection Hi as <-. injection Hj as Heq.
        rewrite Hidi, Hidj in Heq. by apply entry_id_inj in Heq as [_ ->].
      * intros x Hx Hx'. destruct (Hfirst x Hx) as [i ->].
        destruct (Hids _ Hx') as (b & j & Hb & Heq).
        apply entry_id_inj in Heq as [-> _]. lia.
    + intros x [Hx | Hx]%elem_of_app.
      * destruct (Hfirst x Hx) as [i ->]. exists n, i. split; [lia | done].
      * destruct (Hids x Hx) as (b & i & Hb & ->). exists b, i. split; [lia | done].
Qed.

Lemma concat_filter_nonempty {A} (ls : list (list A)) :
  concat (filter (λ l, l ≠ []) ls) = concat ls.
Proof.
  induction ls as [|l ls IH]; [done|]. rewrite filter_cons.
  destruct l as [|x l].
  - rewrite decide_False by (intros Hne; by apply Hne). exact IH.
  - rewrite decide_True by done. cbn. by rewrite IH.
Qed.

Lemma make_entries_bodies (batch_index : nat) (batch : list PyVal) :
  map MessageBody (make_entries batch_index batch) = map json_dumps batch.
Proof.
  unfold make_entries. apply list_eq. intros i.
  rewrite !list_lookup_fmap, list_lookup_imap. by destruct (batch !! i).
Qed.

Lemma bodies_of_entries (groups : list (list PyVal)) :
  map MessageBody (concat (imap make_entries groups))
  = map json_dumps (concat groups).
Proof.
  change make_entries with (λ k, make_entries (0 + k)). generalize 0%nat.
  induction groups as [|g groups IH]; intros n; [done|].
  rewrite imap_cons.
  rewrite (imap_ext _ (λ k, make_entries (S n + k))) by (intros; cbn; f_equal; lia).
  cbn [concat]. rewrite !map_app, IH. f_equal. apply make_entries_bodies.
Qed.
End EntryFacts.

(** X9: the [Id]s of the entries of a run are pairwise distinct, within each
    request and across requests: the [Id] "tender_message_b_i" determines
    the batch index [b] and the position [i]. *)
Theorem entry_ids_unique `{JsonDumps} (groups : list (list PyVal)) :
  NoDup (map Id (concat (requests_of groups))) ∧
  Forall (λ entries, NoDup (map Id entries)) (requests_of groups).
Proof.
  assert (NoDup (map Id (concat (requests_of groups)))) as Hall.
  { unfold requests_of. rewrite concat_filter_nonempty.
    exact (proj1 (make_entries_ids_from groups 0)). }
  split; [exact Hall|].
  revert Hall. generalize (requests_of groups). intros reqs.
  induction reqs as [|r reqs IH]; [constructor|].
  cbn [concat]. rewrite map_app. intros (Hr & _ & Hrest)%NoDup_app.
  constructor; [done | by apply IH].
Qed.

(** X10: what the handler submits for the accepted tenders: the requests
    built from the batches hold between 1 and 10 entries each, every entry
    carries the message group "TransnetTenderScrape", and the message bodies
    of all entries, in order, are the serialized tenders, each exactly
    once. *)
Theorem requests_carry_all_tenders `{JsonDumps} (processed_tender_dicts : list PyVal) :
  let requests := requests_of (message_batches processed_tender_dicts) in
  Forall (λ entries, (1 ≤ length entries ≤ 10)%nat) requests ∧
  Forall (λ e, MessageGroupId e = py "TransnetTenderScrape") (concat requests) ∧
  map MessageBody (concat requests) = map json_dumps processed_tender_dicts.
Proof.
  cbn zeta. split_and!.
  - unfold requests_of. apply Forall_forall. intros entries Hin.
    apply list_elem_of_filter in Hin as [Hne Hin].
    apply list_elem_of_lookup in Hin as [i Hi].
    rewrite list_lookup_imap in Hi.
    destruct (message_batches processed_tender_dicts !! i) as [g|] eqn:Hg;
      [|discriminate Hi].
    cbn in Hi. injection Hi as <-.
    rewrite length_make_entries. split.
    + destruct (make_entries i g) eqn:He; [done|].
      rewrite <- (length_make_entries i g), He. cbn. lia.
    + rewrite (message_batches_lookup _ _ _ Hg), length_take. lia.
  - unfold requests_of. rewrite concat_filter_nonempty.
    apply Forall_forall. intros e He.
    apply elem_of_concat in He as (entries & He & Hentries).
    apply list_elem_of_lookup in Hentries as [i Hi].
    rewrite list_lookup_imap in Hi.
    destruct (message_batches processed_tender_dicts !! i) as [g|]; [|discriminate Hi].
    cbn in Hi. injection Hi as <-.
    apply list_elem_of_lookup in He as [j Hj].
    by apply make_entries_lookup in Hj as (_ & _ & _ & _ & ?).
  - unfold requests_of.
    rewrite concat_filter_nonempty, bodies_of_entries, concat_message_batches.
    reflexivity.
Qed.

(** ** The handler, stage by stage *)

Section HandlerStages.
Context `{UnicodeData} `{Strptime} `{JsonDumps} {Q : Type} `{SqsClient Q}.

Lemma fetch_Ok (doc : PyVal) :
  fetch (Ok doc)
  = match doc with
    | VDict d =>
        match py_len (dict_get d (py "result") (VList [])) with
        | Ok n =>
            ([Log INFO (msg_fetching TRANSNET_API_URL); Log INFO (msg_fetched n)],
             Ok (inr (dict_get d (py "result") (VList []))))
        | Raise _ => ([Log INFO (msg_fetching TRANSNET_API_URL)], Raise TypeError)
        end
    | _ => ([Log INFO (msg_fetching TRANSNET_API_URL)], Raise AttributeError)
    end.
Proof.
  destruct doc; try reflexivity. unfold fetch. cbn.
  by destruct (dict_get d (py "result") (VList [])).
Qed.

Lemma fetch_Raise (e : exn) :
  except_ [RequestException; JSONDecodeError] e = false →
  fetch (Raise e) = ([Log INFO (msg_fetching TRANSNET_API_URL)], Raise e).
Proof. by destruct e. Qed.

Lemma process_items_no_sends (items : list PyVal) :
  sends (process_items items).1 = [].
Proof.
  destruct (forallb item_ok items) eqn:Hok.
  - rewrite (process_items_all_ok _ Hok). cbn [fst].
    rewrite !sends_app.
    assert (sends (flat_map item_warnings items) = []) as ->.
    { clear Hok. induction items as [|item items IH]; [done|].
      cbn [flat_map]. by rewrite sends_app, sends_item_warnings, IH. }
    by destruct (0 <? _)%nat.
  - by destruct (process_items_not_all_ok _ Hok) as (t & -> & Hs).
Qed.

Lemma lambda_handler_Ok (doc : PyVal) (q : Q) (event context : PyVal) :
  lambda_handler (Ok doc) q event context
  = match doc with
    | VDict d =>
        let api_data := dict_get d (py "result") (VList []) in
        match py_len api_data, py_iter api_data with
        | Ok n, Ok items =>
            let pre := [Log INFO msg_starting; Log INFO (msg_fetching TRANSNET_API_URL);
                        Log INFO (msg_fetched n)] in
            match process_items items with
            | (t1, Ok acc) =>
                match to_dicts (processed_tenders acc) with
                | Ok dicts =>
                    let '(q', sent) := send_batches (message_batches dicts) 0 q 0 in
                    (q',
                     bind (pre ++ t1, Ok tt) (λ _,
                       sent_count <- sent ;;
                       logging INFO (msg_complete sent_count) ;;;
                       ret (mk_Summary 200
                              (body_message
                                 (py "Tender data processed and sent to SQS queue.")))))
                | Raise e => (q, (pre ++ t1, Raise e))
                end
            | (t1, Raise e) => (q, (pre ++ t1, Raise e))
            end
        | _, _ =>
            (q, ([Log INFO msg_starting; Log INFO (msg_fetching TRANSNET_API_URL)],
                 Raise TypeError))
        end
    | _ =>
        (q, ([Log INFO msg_starting; Log INFO (msg_fetching TRANSNET_API_URL)],
             Raise AttributeError))
    end.
Proof.
  unfold lambda_handler. cbn [bind logging]. rewrite fetch_Ok.
  destruct doc; try reflexivity. cbn zeta.
  destruct (dict_get d (py "result") (VList [])) as [ | b | z | f | s | l | m];
    try reflexivity; cbn [py_len py_iter app bind lift].
  - destruct (process_items _) as [t1 [acc|e]]; cbn [bind lift]; [|by rewrite ?app_nil_r].
    destruct (to_dicts (processed_tenders acc)); by rewrite ?app_nil_r.
  - destruct (process_items _) as [t1 [acc|e]]; cbn [bind lift]; [|by rewrite ?app_nil_r].
    destruct (to_dicts (processed_tenders acc)); by rewrite ?app_nil_r.
  - destruct (process_items _) as [t1 [acc|e]]; cbn [bind lift]; [|by rewrite ?app_nil_r].
    destruct (to_dicts (processed_tenders acc)); by rewrite ?app_nil_r.
Qed.
End HandlerStages.

(** X11: the handler returns only two summaries.  It returns status 502
    exactly when the fetch raised a request exception or a JSON decoding
    error, and then nothing was sent and the queue is untouched; whenever
    the fetch delivered a document and the handler returns, the summary is
    status 200 with the fixed message. *)
Theorem handler_status `{UnicodeData} `{Strptime} `{JsonDumps} {Q : Type} `{SqsClient Q}
    (fetched : Res PyVal) (q q' : Q) (event context : PyVal)
    (t : list Event) (summary : Summary) :
  lambda_handler fetched q event context = (q', (t, Ok summary)) →
  match fetched with
  | Raise e =>
      except_ [RequestException; JSONDecodeError] e = true ∧
      statusCode summary = 502%Z ∧ q' = q ∧ sends t = []
  | Ok _ =>
      summary = mk_Summary 200
                  (body_message (py "Tender data processed and sent to SQS queue."))
  end.
Proof.
  destruct fetched as [doc|e].
  - rewrite lambda_handler_Ok. destruct doc; try discriminate. cbn zeta.
    destruct (py_len _); [|discriminate].
    destruct (py_iter _); [|discriminate].
    destruct (process_items _) as [t1 [acc|e]]; [|discriminate].
    destruct (to_dicts _) as [dicts|e]; [|discriminate].
    destruct (send_batches_from_0 (message_batches dicts) q) as (q1 & ts & -> & _).
    cbn. by intros [= _ _ <-].
  - destruct (except_ [RequestException; JSONDecodeError] e) eqn:He.
    + destruct (lambda_handler_fetch_failure e q event context He) as (m & err & ->).
      by intros [= <- <- <-].
    + unfold lambda_handler. cbn [bind logging]. rewrite (fetch_Raise e He).
      discriminate.
Qed.

Lemma handler_status_witness :
  ∃ t summary,
    @lambda_handler ucd_excerpt strptime_padded json_dumps_braces nat sqs_flaky
      (Raise RequestException) 7%nat VNone VNone = (7%nat, (t, Ok summary)) ∧
    except_ [RequestException; JSONDecodeError] RequestException = true ∧
    statusCode summary = 502%Z ∧ 7%nat = 7%nat ∧ sends t = [].
Proof.
  eexists _, _. split; [vm_compute; reflexivity|].
  exact (@handler_status ucd_excerpt strptime_padded json_dumps_braces nat sqs_flaky
           (Raise RequestException) 7%nat 7%nat VNone VNone _ _ eq_refl).
Defined.

(** X12: when an exception leaves the handler, no message has been sent and
    the queue is untouched: every exception arises before the first send.
    The exception is the one the fetch raised, a [TypeError] (the ['result']
    value has no length) or an [AttributeError] (the document or an item is
    not a mapping, or a text value is not a string). *)
Theorem handler_raises_before_sending `{UnicodeData} `{Strptime} `{JsonDumps}
    {Q : Type} `{SqsClient Q}
    (fetched : Res PyVal) (q q' : Q) (event context : PyVal)
    (t : list Event) (e : exn) :
  lambda_handler fetched q event context = (q', (t, Raise e)) →
  q' = q ∧ sends t = [] ∧
  (fetched = Raise e ∨ e = TypeError ∨ e = AttributeError).
Proof.
  destruct fetched as [doc|e0].
  - rewrite lambda_handler_Ok.
    destruct doc; try (intros [= <- <- <-]; split_and!; [done | done | by right; right]).
    cbn zeta.
    destruct (py_len _);
      [|intros [= <- <- <-]; split_and!; [done | done | by right; left]].
    destruct (py_iter _) as [items|];
      [|intros [= <- <- <-]; split_and!; [done | done | by right; left]].
    pose proof (process_items_no_sends items) as Hs.
    destruct (process_items items) as [t1 [acc|e1]] eqn:Hrun; cbn [fst] in Hs.
    + destruct (process_items_Ok _ _ _ Hrun) as (_ & _ & Htags & _).
      destruct (to_dicts_Ok _ Htags) as (dicts & -> & _).
      destruct (send_batches_from_0 (message_batches dicts) q) as (q1 & ts & -> & _).
      discriminate.
    + destruct (forallb item_ok items) eqn:Hok.
      * rewrite (process_items_all_ok _ Hok) in Hrun. discriminate Hrun.
      * destruct (process_items_not_all_ok _ Hok) as (t2 & Ht2 & _).
        rewrite Ht2 in Hrun. injection Hrun as <- <-.
        intros [= <- <- <-]. split_and!; [done | | by right; right].
        by rewrite !sends_log.
  - destruct (except_ [RequestException; JSONDecodeError] e0) eqn:He.
    + destruct (lambda_handler_fetch_failure e0 q event context He) as (m & err & ->).
      discriminate.
    + unfold lambda_handler. cbn [bind logging]. rewrite (fetch_Raise e0 He).
      intros [= <- <- <-]. split_and!; [done | done | by left].
Qed.

Lemma handler_raises_before_sending_witness :
  ∃ t,
    @lambda_handler ucd_excerpt strptime_padded json_dumps_braces nat sqs_flaky
      (Ok (document collection_null_first)) 0%nat VNone VNone
      = (0%nat, (t, Raise AttributeError)) ∧
    0%nat = 0%nat ∧ sends t = [] ∧
    (Ok (document collection_null_first) = Raise AttributeError
     ∨ AttributeError = TypeError ∨ AttributeError = AttributeError).
Proof.
  eexists. split; [vm_compute; reflexivity|].
  exact (@handler_raises_before_sending ucd_excerpt strptime_padded json_dumps_braces
           nat sqs_flaky (Ok (document collection_null_first)) 0%nat 0%nat VNone VNone
           _ _ eq_refl).
Defined.

(** X13: a fetched document without a ['result'] key, or with an empty one,
    is a run over zero items: the handler logs zero fetched, zero processed
    and zero sent, makes no queue call and returns status 200. *)
Theorem missing_result_is_empty_run `{UnicodeData} `{Strptime} `{JsonDumps}
    {Q : Type} `{SqsClient Q}
    (d : gmap pystr PyVal) (q : Q) (event context : PyVal) :
  d !! py "result" = None ∨ d !! py "result" = Some (VList []) →
  lambda_handler (Ok (VDict d)) q event context
  = (q, ([Log INFO msg_starting; Log INFO (msg_fetching TRANSNET_API_URL);
          Log INFO (msg_fetched 0); Log INFO (msg_processed 0);
          Log INFO (msg_complete 0)],
         Ok (mk_Summary 200
               (body_message (py "Tender data processed and sent to SQS queue."))))).
Proof.
  intros Hd. rewrite lambda_handler_Ok. cbn zeta.
  assert (dict_get d (py "result") (VList []) = VList []) as ->.
  { unfold dict_get. by destruct Hd as [-> | ->]. }
  reflexivity.
Qed.

Lemma missing_result_is_empty_run_witness :
  (dict [("status", VStr (py "ok"))] : gmap pystr PyVal) !! py "result" = None ∧
  @lambda_handler ucd_excerpt strptime_padded json_dumps_braces nat sqs_flaky
    (Ok (VDict (dict [("status", VStr (py "ok"))]))) 0%nat VNone VNone
  = (0%nat, ([Log INFO msg_starting; Log INFO (msg_fetching TRANSNET_API_URL);
              Log INFO (msg_fetched 0); Log INFO (msg_processed 0);
              Log INFO (msg_complete 0)],
             Ok (mk_Summary 200
                   (body_message (py "Tender data processed and sent to SQS queue."))))).
Proof.
  split; [reflexivity|].
  apply (@missing_result_is_empty_run ucd_excerpt strptime_padded json_dumps_braces
           nat sqs_flaky). left. reflexivity.
Defined.

Section CountFacts.
Context `{JsonDumps} {Q : Type} `{SqsClient Q}.

Lemma replies_all_confirmed (requests : list (list Entry)) :
  (∀ q entries,
     confirmed (send_message_batch q SQS_QUEUE_URL entries).2 = length entries) →
  ∀ q, map confirmed (replies q requests) = map length requests.
Proof.
  intros Hall. induction requests as [|r rs IH]; intros q; [done|].
  cbn [replies]. pose proof (Hall q r) as Hr.
  destruct (send_message_batch q SQS_QUEUE_URL r) as [q1 outcome].
  cbn [map]. cbn [snd] in Hr. by rewrite Hr, IH.
Qed.

Lemma sum_list_lengths {A} (ls : list (list A)) :
  sum_list (map length ls) = length (concat ls).
Proof.
  induction ls as [|l ls IH]; [done|]. cbn. rewrite length_app.
  unfold sum_list in IH. by rewrite IH.
Qed.

Lemma requests_total (dicts : list PyVal) :
  length (concat (requests_of (message_batches dicts))) = length dicts.
Proof.
  unfold requests_of. rewrite concat_filter_nonempty.
  rewrite <- (length_map MessageBody), bodies_of_entries, concat_message_batches.
  apply length_map.
Qed.
End CountFacts.

(** X14: with a queue that confirms every entry it is given, the sent-count
    the handler reports is the number of accepted tenders, that is the
    number of raw items minus the skipped ones. *)
Theorem sent_count_is_accepted_count `{UnicodeData} `{Strptime} `{JsonDumps}
    {Q : Type} `{SqsClient Q}
    (doc : PyVal) (items : list PyVal) (t1 : list Event) (acc : Normalized)
    (q : Q) (event context : PyVal) :
  (∀ q entries,
     confirmed (send_message_batch q SQS_QUEUE_URL entries).2 = length entries) →
  py_get doc (py "result") (VList []) = Ok (VList items) →
  process_items items = (t1, Ok acc) →
  ∃ q' t,
    lambda_handler (Ok doc) q event context
    = (q', (t, Ok (mk_Summary 200
                     (body_message (py "Tender data processed and sent to SQS queue.")))))
    ∧ last t = Some (Log INFO (msg_complete (length (processed_tenders acc))))
    ∧ (length (processed_tenders acc) + skipped_count acc = length items)%nat.
Proof.
  intros Hall Hget Hrun.
  destruct (lambda_handler_success doc items t1 acc q event context Hget Hrun)
    as (q' & t & dicts & Hh & Hdicts & _ & Hlast).
  destruct (process_items_Ok _ _ _ Hrun) as (_ & Hn & Htags & _).
  destruct (to_dicts_Ok _ Htags) as (dicts' & Hdicts' & Hlen).
  rewrite Hdicts in Hdicts'. injection Hdicts' as <-.
  exists q', t. split; [exact Hh|]. split; [|exact Hn].
  rewrite Hlast. do 3 f_equal.
  rewrite (replies_all_confirmed _ Hall), sum_list_lengths, requests_total.
  exact Hlen.
Qed.

Lemma sent_count_is_accepted_count_witness :
  (∀ q entries,
     confirmed (@send_message_batch unit sqs_accepting q SQS_QUEUE_URL entries).2
     = length entries) ∧
  py_get (document collection_mixed) (py "result") (VList []) = Ok (VList collection_mixed) ∧
  ∃ t1 acc q' t,
    @process_items ucd_excerpt strptime_padded collection_mixed = (t1, Ok acc) ∧
    @lambda_handler ucd_excerpt strptime_padded json_dumps_braces unit sqs_accepting
      (Ok (document collection_mixed)) tt VNone VNone
    = (q', (t, Ok (mk_Summary 200
                     (body_message (py "Tender data processed and sent to SQS queue.")))))
    ∧ last t = Some (Log INFO (msg_complete (length (processed_tenders acc))))
    ∧ (length (processed_tenders acc) + skipped_count acc
       = length collection_mixed)%nat.
Proof.
  assert (∀ q entries,
            confirmed (@send_message_batch unit sqs_accepting q SQS_QUEUE_URL entries).2
            = length entries) as Hall.
  { intros q entries. cbn. apply length_map. }
  split; [exact Hall|]. split; [reflexivity|].
  assert (∃ t1 acc, @process_items ucd_excerpt strptime_padded collection_mixed
                    = (t1, Ok acc)) as (t1 & acc & Hrun)
    by (eexists _, _; vm_compute; reflexivity).
  destruct (@sent_count_is_accepted_count ucd_excerpt strptime_padded
              json_dumps_braces unit sqs_accepting (document collection_mixed)
              collection_mixed t1 acc tt VNone VNone Hall eq_refl Hrun)
    as (q' & t & Hh & Hl & Hn).
  exists t1, acc, q', t. done.
Defined.

(** X15: what the fetch step does not turn into a 502 summary.  An exception
    of the fetch that is neither a request exception nor a JSON decoding
    error, a document that is not a JSON object, and a ['result'] value
    without length (null, a number, a boolean) each make the handler raise:
    the fetch exception itself, [AttributeError] and [TypeError]. *)
Theorem malformed_document_raises `{UnicodeData} `{Strptime} `{JsonDumps}
    {Q : Type} `{SqsClient Q}
    (e : exn) (doc : PyVal) (d : gmap pystr PyVal) (v : PyVal)
    (q : Q) (event context : PyVal) :
  except_ [RequestException; JSONDecodeError] e = false →
  (∀ d', doc ≠ VDict d') →
  d !! py "result" = Some v →
  py_len v = Raise TypeError →
  let pre := [Log INFO msg_starting; Log INFO (msg_fetching TRANSNET_API_URL)] in
  lambda_handler (Raise e) q event context = (q, (pre, Raise e)) ∧
  lambda_handler (Ok doc) q event context = (q, (pre, Raise AttributeError)) ∧
  lambda_handler (Ok (VDict d)) q event context = (q, (pre, Raise TypeError)).
Proof.
  intros He Hdoc Hd Hv. cbn zeta. split_and!.
  - unfold lambda_handler. cbn [bind logging]. by rewrite (fetch_Raise e He).
  - rewrite lambda_handler_Ok. destruct doc; try reflexivity. by destruct (Hdoc d0).
  - rewrite lambda_handler_Ok. cbn zeta. unfold dict_get. rewrite Hd, Hv. reflexivity.
Qed.

Lemma malformed_document_raises_witness :
  except_ [RequestException; JSONDecodeError] (OtherException "MemoryError") = false ∧
  (∀ d', VList [] ≠ VDict d') ∧
  (dict [("result", VNone)] : gmap pystr PyVal) !! py "result" = Some VNone ∧
  py_len VNone = Raise TypeError ∧
  let pre := [Log INFO msg_starting; Log INFO (msg_fetching TRANSNET_API_URL)] in
  @lambda_handler ucd_excerpt strptime_padded json_dumps_braces nat sqs_flaky
    (Raise (OtherException "MemoryError")) 0%nat VNone VNone
    = (0%nat, (pre, Raise (OtherException "MemoryError"))) ∧
  @lambda_handler ucd_excerpt strptime_padded json_dumps_braces nat sqs_flaky
    (Ok (VList [])) 0%nat VNone VNone = (0%nat, (pre, Raise AttributeError)) ∧
  @lambda_handler ucd_excerpt strptime_padded json_dumps_braces nat sqs_flaky
    (Ok (VDict (dict [("result", VNone)]))) 0%nat VNone VNone
    = (0%nat, (pre, Raise TypeError)).
Proof.
  split; [reflexivity|]. split; [discriminate|]. split; [reflexivity|].
  split; [reflexivity|].
  apply (@malformed_document_raises ucd_excerpt strptime_padded json_dumps_braces
           nat sqs_flaky (OtherException "MemoryError") (VList [])
           (dict [("result", VNone)]) VNone);
    [reflexivity | discriminate | reflexivity | reflexivity].
Defined.

Section FailingQueue.
Context `{JsonDumps} {Q : Type} `{SqsClient Q}.

Lemma replies_all_raise (requests : list (list Entry)) :
  (∀ q entries, ∃ e, (send_message_batch q SQS_QUEUE_URL entries).2 = Raise e) →
  ∀ q, map confirmed (replies q requests) = map (λ _, 0%nat) requests.
Proof.
  intros Hall. induction requests as [|r rs IH]; intros q; [done|].
  cbn [replies]. destruct (Hall q r) as [e He].
  destruct (send_message_batch q SQS_QUEUE_URL r) as [q1 outcome].
  cbn [snd] in He. subst outcome. cbn [map confirmed]. by rewrite IH.
Qed.

Lemma sum_list_zeros {A} (l : list A) : sum_list (map (λ _, 0%nat) l) = 0%nat.
Proof. by induction l. Qed.

Lemma filter_Forall_id {A} (P : A → Prop) `{∀ x, Decision (P x)} (l : list A) :
  Forall P l → filter P l = l.
Proof.
  induction 1 as [|x l Hx _ IH]; [done|]. by rewrite filter_cons_True, IH.
Qed.

Lemma message_batches_nonempty {A} (l : list A) :
  filter (λ g, g ≠ []) (message_batches l) = message_batches l.
Proof.
  apply filter_Forall_id, Forall_lookup_2. intros i g Hg.
  pose proof (lookup_lt_Some _ _ _ Hg) as Hi.
  rewrite message_batches_eq, length_map, length_seq in Hi.
  apply message_batches_lookup in Hg. subst g.
  pose proof (ceil_div_10 (length l)) as [_ Hm]. cbn zeta in Hm.
  intros Hnil. apply (f_equal length) in Hnil.
  rewrite length_take, length_drop in Hnil. cbn [length] in Hnil. lia.
Qed.
End FailingQueue.

(** X16: a queue that raises at every call does not stop the run or change
    its result.  Every batch is still submitted once (ceil(n/10) calls for n
    accepted tenders), no entry is counted as sent, the last log record
    reports zero, and the summary is the same status 200 as after a full
    delivery. *)
Theorem failing_queue_still_succeeds `{UnicodeData} `{Strptime} `{JsonDumps}
    {Q : Type} `{SqsClient Q}
    (doc : PyVal) (items : list PyVal) (t1 : list Event) (acc : Normalized)
    (q : Q) (event context : PyVal) :
  (∀ q entries, ∃ e, (send_message_batch q SQS_QUEUE_URL entries).2 = Raise e) →
  py_get doc (py "result") (VList []) = Ok (VList items) →
  process_items items = (t1, Ok acc) →
  ∃ q' t,
    lambda_handler (Ok doc) q event context
    = (q', (t, Ok (mk_Summary 200
                     (body_message (py "Tender data processed and sent to SQS queue.")))))
    ∧ length (sends t) = ((length (processed_tenders acc) + 9) / 10)%nat
    ∧ Forall (λ call, confirmed call.2 = 0%nat) (sends t)
    ∧ last t = Some (Log INFO (msg_complete 0)).
Proof.
  intros Hall Hget Hrun.
  destruct (lambda_handler_success doc items t1 acc q event context Hget Hrun)
    as (q' & t & dicts & Hh & Hdicts & Hsends & Hlast).
  destruct (process_items_Ok _ _ _ Hrun) as (_ & _ & Htags & _).
  destruct (to_dicts_Ok _ Htags) as (dicts' & Hdicts' & Hlen).
  rewrite Hdicts in Hdicts'. injection Hdicts' as <-.
  pose proof (replies_all_raise (requests_of (message_batches dicts)) Hall q) as Hz.
  exists q', t. split_and!.
  - exact Hh.
  - rewrite Hsends, length_zip, replies_length, Nat.min_id, requests_of_length,
      message_batches_nonempty, message_batches_eq, length_map, length_seq.
    by rewrite Hlen.
  - rewrite Hsends. apply Forall_forall. intros [entries outcome] Hin.
    apply elem_of_zip_r in Hin. cbn [snd].
    assert (confirmed outcome ∈ map confirmed
              (replies q (requests_of (message_batches dicts)))) as Hc
      by (by apply list_elem_of_fmap_2).
    rewrite Hz in Hc. apply list_elem_of_fmap in Hc as (? & -> & _). done.
  - by rewrite Hlast, Hz, sum_list_zeros.
Qed.

Lemma failing_queue_still_succeeds_witness :
  (∀ q entries, ∃ e,
     (@send_message_batch unit sqs_failing q SQS_QUEUE_URL entries).2 = Raise e) ∧
  py_get (document collection_mixed) (py "result") (VList []) = Ok (VList collection_mixed) ∧
  ∃ t1 acc q' t,
    @process_items ucd_excerpt strptime_padded collection_mixed = (t1, Ok acc) ∧
    @lambda_handler ucd_excerpt strptime_padded json_dumps_braces unit sqs_failing
      (Ok (document collection_mixed)) tt VNone VNone
    = (q', (t, Ok (mk_Summary 200
                     (body_message (py "Tender data processed and sent to SQS queue.")))))
    ∧ length (sends t) = ((length (processed_tenders acc) + 9) / 10)%nat
    ∧ Forall (λ call, confirmed call.2 = 0%nat) (sends t)
    ∧ last t = Some (Log INFO (msg_complete 0)).
Proof.
  assert (∀ q entries, ∃ e,
            (@send_message_batch unit sqs_failing q SQS_QUEUE_URL entries).2 = Raise e)
    as Hall by (intros q entries; eexists; reflexivity).
  split; [exact Hall|]. split; [reflexivity|].
  assert (∃ t1 acc, @process_items ucd_excerpt strptime_padded collection_mixed
                    = (t1, Ok acc)) as (t1 & acc & Hrun)
    by (eexists _, _; vm_compute; reflexivity).
  destruct (@failing_queue_still_succeeds ucd_excerpt strptime_padded
              json_dumps_braces unit sqs_failing (document collection_mixed)
              collection_mixed t1 acc tt VNone VNone Hall eq_refl Hrun)
    as (q' & t & Hh & Hn & Hc & Hl).
  exists t1, acc, q', t. done.
Defined.
